(** * Multi-Device Bluetooth Driver: the simulation scripts, embedded

    Two Python scripts carry the decision logic of the repository:

    - [windows/test/simulate_test.py]: class [MockBluetoothDriver]
      ([connect_mock_device], [simulate_traffic], [run_ai_optimization]) and
      its [main];
    - [windows/test/realtime_dashboard.py]: the module-level list [DEVICES]
      and the loop [simulate].

    Both draw from Python's [random] module.  The generator is modelled as a
    tape of raw integers read through a cursor; every library call
    ([randint], [random], [uniform]) consumes one cell.  Python's [float] is
    IEEE binary64 and is modelled by Rocq's primitive floats; Python's [int]
    by [Z]; [str] by [string]; a [dict] with a fixed set of keys by a record;
    a [list] by [list].  Lines printed for the console (banner, table,
    clock) are presentation and are left out, except the [AI ACTION] lines,
    which are the only record the driver script keeps of its decisions. *)

From Stdlib Require Import ZArith List String Ascii Bool Lia.
From Stdlib Require Import PrimFloat Uint63.
From Stdlib Require Import DecimalString DecimalZ.
Import ListNotations.

Open Scope string_scope.
Open Scope list_scope.
Open Scope Z_scope.

(** ** Python primitives used by the scripts *)

Module Py.

(** [str(n)] / [f"{n}"] for an [int]. *)
Definition str_of_int (n : Z) : string :=
  NilEmpty.string_of_int (Z.to_int n).

Definition hex_digit (n : Z) : ascii :=
  match n with
  | 0 => "0" | 1 => "1" | 2 => "2" | 3 => "3" | 4 => "4" | 5 => "5"
  | 6 => "6" | 7 => "7" | 8 => "8" | 9 => "9" | 10 => "a" | 11 => "b"
  | 12 => "c" | 13 => "d" | 14 => "e" | _ => "f"
  end%char.

(** ["%02x" % n] for [0 <= n <= 255], the only values the script formats
    (they come from [randint(0, 255)]). *)
Definition hex02 (n : Z) : string :=
  String (hex_digit (n / 16)) (String (hex_digit (n mod 16)) EmptyString).

(** [sep.join(parts)]. *)
Definition join (sep : string) (parts : list string) : string :=
  String.concat sep parts.

(** [x in xs] for a list of strings. *)
Definition str_in (x : string) (xs : list string) : bool :=
  existsb (String.eqb x) xs.

(** [float(n)] for [0 <= n < 2^63]. *)
Definition float_of_int (n : Z) : float :=
  PrimFloat.of_uint63 (Uint63.of_Z n).

(** [xs[-k:]] for [k > 0]. *)
Definition last_k {A} (k : nat) (xs : list A) : list A :=
  skipn (List.length xs - k) xs.

End Py.

(** ** The [random] module

    [tape i] is the raw value behind the [i]-th call; the cursor counts the
    calls made so far. *)

Module Rand.

Definition tape := nat -> Z.

Definition M (A : Type) : Type := tape -> nat -> A * nat.

Definition ret {A} (a : A) : M A := fun _ i => (a, i).

Definition bind {A B} (m : M A) (k : A -> M B) : M B :=
  fun t i => let (a, j) := m t i in k a t j.

Definition run {A} (m : M A) (t : tape) : A := fst (m t 0%nat).

(** [random.randint(a, b)]: an integer [n] with [a <= n <= b]. *)
Definition randint (a b : Z) : M Z :=
  fun t i => (a + t i mod (b - a + 1), S i).

(** [random.random()]: [k / 2^53] for a 53-bit [k], so in [[0, 1)]. *)
Definition random : M float :=
  fun t i =>
    (PrimFloat.div (Py.float_of_int (t i mod 9007199254740992))
                   9007199254740992%float, S i).

(** [random.uniform(a, b)] is [a + (b - a) * random()]. *)
Definition uniform (a b : float) : M float :=
  bind random (fun u => ret (PrimFloat.add a (PrimFloat.mul (PrimFloat.sub b a) u))).

(** A tape that replays the given raw values and then zeros. *)
Definition replay (l : list Z) : tape := fun i => nth i l 0.

End Rand.

Notation "x <- m ;; k" := (Rand.bind m (fun x => k))
  (at level 61, m at next level, right associativity).
Notation "' pat <- m ;; k" := (Rand.bind m (fun x => match x with pat => k end))
  (at level 61, pat pattern, m at next level, right associativity).

(** ** [windows/test/simulate_test.py] *)

Module Driver.
Import Rand.

(** [DEVICE_TYPES.get(device_type, "Unknown")]. *)
Definition DEVICE_TYPES (device_type : Z) : string :=
  match device_type with
  | 1 => "Air Conditioner"
  | 2 => "Refrigerator"
  | 3 => "Android TV"
  | 4 => "Bluetooth Headphones"
  | 5 => "Mobile Phone"
  | _ => "Unknown"
  end.

Definition PRIORITIES : list string := ["CRITICAL"; "HIGH"; "MEDIUM"; "LOW"].

(** One entry of [active_connections]. *)
Record device := mkDevice {
  name : string;
  address : string;
  type : string;
  type_code : Z;
  priority : string;
  signal : Z;
  data_rate : float;
  status : string
}.

Record stats := mkStats {
  total_bytes : Z;
  packets : Z;
  ai_optimizations : Z
}.

(** The fields of a [MockBluetoothDriver]. *)
Record driver := mkDriver {
  active_connections : list device;
  driver_stats : stats
}.

(** [__init__]. *)
Definition init : driver :=
  mkDriver [] (mkStats 0 0 0).

Fixpoint repeatM {A} (n : nat) (m : M A) : M (list A) :=
  match n with
  | O => ret []
  | S n' => x <- m ;; xs <- repeatM n' m ;; ret (x :: xs)
  end.

(** [connect_mock_device(name, device_type)]: no check against the
    entries already present, no failure path. *)
Definition connect_mock_device (nm : string) (device_type : Z) (d : driver)
  : M driver :=
  bytes <- repeatM 6 (randint 0 255) ;;
  let addr := Py.join ":" (map Py.hex02 bytes) in
  sig <- randint (-90) (-30) ;;
  let dev := {| name := nm;
                address := addr;
                type := DEVICE_TYPES device_type;
                type_code := device_type;
                priority := "MEDIUM";
                signal := sig;
                data_rate := 0%float;
                status := "Connected" |} in
  ret (mkDriver (active_connections d ++ [dev]) (driver_stats d)).

(** Body of the loop of [simulate_traffic] on one device, given the two
    values drawn for it. *)
Definition traffic_step (packet_size delta : Z) (dev : device) : device :=
  {| name := name dev;
     address := address dev;
     type := type dev;
     type_code := type_code dev;
     priority := priority dev;
     signal := signal dev + delta;
     data_rate := PrimFloat.div (Py.float_of_int packet_size) 0.5%float;
     status := status dev |}.

Definition count_packet (packet_size : Z) (st : stats) : stats :=
  {| total_bytes := total_bytes st + packet_size;
     packets := packets st + 1;
     ai_optimizations := ai_optimizations st |}.

Fixpoint traffic_loop (conns : list device) (st : stats)
  : M (list device * stats) :=
  match conns with
  | [] => ret ([], st)
  | dev :: rest =>
      packet_size <- randint 100 5000 ;;
      delta <- randint (-2) 2 ;;
      '(rest', st') <- traffic_loop rest (count_packet packet_size st) ;;
      ret (traffic_step packet_size delta dev :: rest', st')
  end.

Definition simulate_traffic (d : driver) : M driver :=
  '(conns, st) <- traffic_loop (active_connections d) (driver_stats d) ;;
  ret (mkDriver conns st).

Definition set_priority (p : string) (dev : device) : device :=
  {| name := name dev;
     address := address dev;
     type := type dev;
     type_code := type_code dev;
     priority := p;
     signal := signal dev;
     data_rate := data_rate dev;
     status := status dev |}.

Definition count_optimization (st : stats) : stats :=
  {| total_bytes := total_bytes st;
     packets := packets st;
     ai_optimizations := ai_optimizations st + 1 |}.

(** The three [AI ACTION] lines of [run_ai_optimization]. *)
Definition boost_priority_msg (dev : device) : string :=
  ("  > AI ACTION: Boosting Priority for '" ++ name dev
     ++ "' to CRITICAL (Audio Detection)")%string.

Definition signal_boost_msg (dev : device) : string :=
  ("  > AI ACTION: Initiating Signal Boost for '" ++ name dev
     ++ "' (Weak Signal: " ++ Py.str_of_int (signal dev) ++ "dBm)")%string.

Definition power_msg : string :=
  "  > AI ACTION: Optimizing AC Power Bandwidth (Pattern: Compressor Start detected)".

(** The printed lines are returned together with the new state. *)
Definition acc : Type := device * stats * list string.

(** The conditions of the first two [if]s. *)
Definition audio_detected (dev : device) : bool :=
  (type dev =? "Bluetooth Headphones")%string
  && negb (priority dev =? "CRITICAL")%string.

Definition weak_signal (dev : device) : bool := signal dev <? -80.

Definition rule_priority (a : acc) : acc :=
  let '(dev, st, out) := a in
  if audio_detected dev
  then (set_priority "CRITICAL" dev, count_optimization st,
        out ++ [boost_priority_msg dev])
  else a.

Definition rule_signal (a : acc) : acc :=
  let '(dev, st, out) := a in
  if weak_signal dev
  then (dev, count_optimization st, out ++ [signal_boost_msg dev])
  else a.

(** [random.random()] is called only for an air conditioner ([and]
    evaluates its right operand only when the left one holds). *)
Definition rule_power (a : acc) : M acc :=
  let '(dev, st, out) := a in
  if (type dev =? "Air Conditioner")%string
  then r <- random ;;
       if PrimFloat.ltb 0x1.6666666666666p-1%float r
       then ret (dev, count_optimization st, out ++ [power_msg])
       else ret a
  else ret a.

(** The entry as the first rule leaves it: the only field
    [run_ai_optimization] ever assigns is ["priority"]. *)
Definition elevated (dev : device) : device :=
  if audio_detected dev then set_priority "CRITICAL" dev else dev.

Definition optimize_device (a : acc) : M acc :=
  rule_power (rule_signal (rule_priority a)).

Fixpoint optimize_loop (conns : list device) (st : stats) (out : list string)
  : M (list device * stats * list string) :=
  match conns with
  | [] => ret ([], st, out)
  | dev :: rest =>
      '(dev', st', out') <- optimize_device (dev, st, out) ;;
      '(rest', st'', out'') <- optimize_loop rest st' out' ;;
      ret (dev' :: rest', st'', out'')
  end.

(** [run_ai_optimization]: the new driver and the [AI ACTION] lines
    printed by this call, in order. *)
Definition run_ai_optimization (d : driver) : M (driver * list string) :=
  '(conns, st, out) <- optimize_loop (active_connections d) (driver_stats d) [] ;;
  ret (mkDriver conns st, out).

(** One iteration of the loop of [main] for index [i]. *)
Definition main_cycle (i : Z) (s : driver * list string)
  : M (driver * list string) :=
  let (d, out) := s in
  d1 <- simulate_traffic d ;;
  if i mod 2 =? 0
  then '(d2, lines) <- run_ai_optimization d1 ;; ret (d2, out ++ lines)
  else ret (d1, out).

(** [for i in range(n)], counting from [i], over a state of type [St]. *)
Fixpoint for_range {St} (n : nat) (i : Z) (body : Z -> St -> M St) (s : St)
  : M St :=
  match n with
  | O => ret s
  | S n' => s' <- body i s ;; for_range n' (i + 1) body s'
  end.

Definition connect_all : M driver :=
  d1 <- connect_mock_device "Living Room AC" 1 init ;;
  d2 <- connect_mock_device "Kitchen Fridge" 2 d1 ;;
  d3 <- connect_mock_device "Sony XM4" 4 d2 ;;
  d4 <- connect_mock_device "Samsung S23" 5 d3 ;;
  connect_mock_device "Sony Bravia TV" 3 d4.

(** [main]: five connections, then five cycles. *)
Definition main : M (driver * list string) :=
  d <- connect_all ;;
  for_range 5 0 main_cycle (d, []).

End Driver.

(** ** [windows/test/realtime_dashboard.py] *)

Module Dashboard.
Import Rand.

Definition NUM_CYCLES : nat := 20.

Record device := mkDevice {
  name : string;
  type : string;
  addr : string;
  priority : string;
  load : Z
}.

Definition DEVICES : list device :=
  [ mkDevice "Living Room AC" "Air Conditioner" "B4:3A:92:7C:F5:12" "MEDIUM" 0;
    mkDevice "Kitchen Fridge" "Refrigerator" "C1:44:8E:20:BC:99" "MEDIUM" 0;
    mkDevice "Sony XM4" "Headphones" "A8:11:7F:32:01:45" "HIGH" 0;
    mkDevice "Samsung S23" "Mobile Phone" "D9:92:1C:88:A3:21" "MEDIUM" 0;
    mkDevice "Sony Bravia TV" "Android TV" "E2:33:00:11:CC:DD" "LOW" 0 ].

Definition set_priority (p : string) (dev : device) : device :=
  {| name := name dev;
     type := type dev;
     addr := addr dev;
     priority := p;
     load := load dev |}.

Definition signal_boost_msg (dev : device) (signal : Z) : string :=
  ("AI ACTION: Signal boost for " ++ name dev
     ++ " (" ++ Py.str_of_int signal ++ "dBm)")%string.

(** The text names the Sony XM4 whatever the device is. *)
Definition elevate_msg : string :=
  "AI ACTION: Elevating Sony XM4 to CRITICAL (High Fidelity Audio stream detected)".

(** [if action not in logs: logs.append(action)]. *)
Definition log_once (action : string) (logs : list string) : list string :=
  if Py.str_in action logs then logs else logs ++ [action].

(** The block under the comment "AI Engine Logic", for the [signal] and
    [traffic] drawn for this device in this cycle. *)
Definition ai_engine (dev : device) (signal : Z) (traffic : float)
           (logs : list string) : device * list string :=
  let logs1 :=
    if signal <? -85 then log_once (signal_boost_msg dev signal) logs
    else logs in
  if (type dev =? "Headphones")%string
     && PrimFloat.ltb 5%float traffic
     && negb (priority dev =? "CRITICAL")%string
  then (set_priority "CRITICAL" dev, log_once elevate_msg logs1)
  else (dev, logs1).

(** Body of [for dev in DEVICES]: the two draws, then the engine. *)
Definition device_step (dev : device) (logs : list string)
  : M (device * list string) :=
  signal <- randint (-95) (-30) ;;
  traffic <- (if negb (priority dev =? "LOW")%string
              then uniform 0x1.999999999999ap-4%float 15.5%float
              else uniform 0x1.999999999999ap-4%float 0x1.3333333333333p+0%float) ;;
  ret (ai_engine dev signal traffic logs).

Fixpoint device_loop (devs : list device) (logs : list string)
  : M (list device * list string) :=
  match devs with
  | [] => ret ([], logs)
  | dev :: rest =>
      '(dev', logs') <- device_step dev logs ;;
      '(rest', logs'') <- device_loop rest logs' ;;
      ret (dev' :: rest', logs'')
  end.

(** What a cycle prints under "RECENT AI ENGINE EVENT LOGS": [logs[-5:]]. *)
Definition recent (logs : list string) : list string := Py.last_k 5 logs.

(** The state carried by [simulate]: the devices, [logs], and the event
    panel shown at the end of each cycle so far. *)
Record state := mkState {
  devices : list device;
  logs : list string;
  shown : list (list string)
}.

Definition cycle (s : state) : M state :=
  '(devs, lg) <- device_loop (devices s) (logs s) ;;
  ret (mkState devs lg (shown s ++ [recent lg])).

Fixpoint cycles (n : nat) (s : state) : M state :=
  match n with
  | O => ret s
  | S n' => s' <- cycle s ;; cycles n' s'
  end.

Definition simulate : M state :=
  cycles NUM_CYCLES (mkState DEVICES [] []).

End Dashboard.

(** ** Relations used to state the properties *)

Module Obs.

(** How one dashboard entry may differ after some evaluations whose log
    is [lg]: not at all, or by the elevation to ["CRITICAL"], which then
    has its message in [lg]. *)
Definition dash_moved (lg : list string) (d d' : Dashboard.device) : Prop :=
  d' = d
  \/ (Dashboard.type d = "Headphones"
      /\ Dashboard.priority d <> "CRITICAL"
      /\ d' = Dashboard.set_priority "CRITICAL" d
      /\ In Dashboard.elevate_msg lg).

(** Position of a priority in [PRIORITIES] (0 is the highest); 4 for a
    string that is not listed. *)
Fixpoint index_of (p : string) (l : list string) : nat :=
  match l with
  | [] => O
  | q :: l' => if (p =? q)%string then O else S (index_of p l')
  end.

Definition rank (p : string) : nat := index_of p Driver.PRIORITIES.

(** The readings below -85 that [randint(-95, -30)] can return. *)
Definition low_readings : list Z :=
  [-95; -94; -93; -92; -91; -90; -89; -88; -87; -86].

(** Every text the dashboard can ever log for the given devices. *)
Definition possible_entries (devs : list Dashboard.device) : list string :=
  Dashboard.elevate_msg
    :: flat_map (fun d => map (Dashboard.signal_boost_msg d) low_readings) devs.

(** A priority [p] that became [p']: unchanged, or raised to the top. *)
Definition raised_or_same (p p' : string) : Prop :=
  p' = p \/ p' = "CRITICAL".

End Obs.

(** ** The colour of a dashboard row *)

Module View.

(** The three ANSI sequences of [simulate]; ["027"] is the escape
    character. *)
Definition GREEN : string := String "027" "[92m".
Definition RED : string := String "027" "[91m".
Definition YELLOW : string := String "027" "[33m".

(** [status_color] as [simulate] computes it from the drawn signal: green,
    overwritten by red below -80, else by yellow below -70. *)
Definition status_color (signal : Z) : string :=
  if signal <? -80 then RED
  else if signal <? -70 then YELLOW
  else GREEN.

End View.

(** ** Measures used to state further properties *)

Module Measure.

Definition is_air_conditioner (e : Driver.device) : bool :=
  (Driver.type e =? "Air Conditioner")%string.

(** The fields of a driver entry that no operation assigns after the
    connection. *)
Definition identity (e : Driver.device) : string * string * string * Z * string :=
  (Driver.name e, Driver.address e, Driver.type e, Driver.type_code e,
   Driver.status e).

(** The fields of a dashboard entry other than its priority. *)
Definition label (d : Dashboard.device) : string * string * string * Z :=
  (Dashboard.name d, Dashboard.type d, Dashboard.addr d, Dashboard.load d).

Definition sum (l : list Z) : Z := fold_right Z.add 0 l.

(** The stored rate for a packet size [p] is exactly [2 * p] and lies
    between 200 and 10000. *)
Definition rate_checked (p : Z) : bool :=
  let r := PrimFloat.div (Py.float_of_int p) 0.5%float in
  PrimFloat.eqb r (Py.float_of_int (2 * p))
  && PrimFloat.leb 200%float r && PrimFloat.leb r 10000%float.

Definition packet_sizes : list Z := map Z.of_nat (seq 100 4901).

(** The value of a lowercase hexadecimal digit, to read an address back. *)
Definition digit_value (c : ascii) : Z :=
  match c with
  | "0" => 0 | "1" => 1 | "2" => 2 | "3" => 3 | "4" => 4 | "5" => 5
  | "6" => 6 | "7" => 7 | "8" => 8 | "9" => 9 | "a" => 10 | "b" => 11
  | "c" => 12 | "d" => 13 | "e" => 14 | _ => 15
  end%char.

(** An entry whose priority is where the passes of a run that connects
    everything at MEDIUM leave it: CRITICAL for headphones, MEDIUM
    otherwise. *)
Definition settled (e : Driver.device) : Prop :=
  Driver.priority e
  = if (Driver.type e =? "Bluetooth Headphones")%string then "CRITICAL" else "MEDIUM".

(** Number of entries that satisfy [f]. *)
Definition count {A : Type} (f : A -> bool) (l : list A) : Z :=
  Z.of_nat (List.length (filter f l)).

End Measure.

(** * Properties *)

(** ** Strings and the random tape *)

Section PyFacts.

Lemma str_in_iff (x : string) (xs : list string) :
  Py.str_in x xs = true <-> In x xs.
Proof.
  unfold Py.str_in. rewrite existsb_exists. split.
  - intros [y [Hy He]]. apply String.eqb_eq in He. now subst.
  - intros H. exists x. split; [assumption | apply String.eqb_refl].
Qed.

Lemma str_in_false (x : string) (xs : list string) :
  Py.str_in x xs = false <-> ~ In x xs.
Proof.
  rewrite <- str_in_iff. destruct (Py.str_in x xs); split; intros; congruence.
Qed.

Lemma str_of_int_inj (a b : Z) :
  Py.str_of_int a = Py.str_of_int b -> a = b.
Proof.
  unfold Py.str_of_int. intros H.
  assert (E : Some (Z.to_int a) = Some (Z.to_int b)).
  { rewrite <- !NilEmpty.isi. now rewrite H. }
  injection E as E.
  rewrite <- (DecimalZ.of_to a), <- (DecimalZ.of_to b). now rewrite E.
Qed.

Lemma append_cancel_l (p a b : string) :
  (p ++ a = p ++ b)%string -> a = b.
Proof.
  induction p as [|c p IH]; simpl; intros H; [assumption|].
  injection H as H. auto.
Qed.

Lemma append_length (a b : string) :
  String.length (a ++ b)%string = (String.length a + String.length b)%nat.
Proof. induction a; simpl; auto. Qed.

Lemma append_cancel_r (a b c : string) :
  (a ++ c = b ++ c)%string -> a = b.
Proof.
  revert b. induction a as [|x a IH]; intros [|y b] H; simpl in *.
  - reflexivity.
  - apply (f_equal String.length) in H. simpl in H.
    rewrite append_length in H. lia.
  - apply (f_equal String.length) in H. simpl in H.
    rewrite append_length in H. lia.
  - injection H as Hx H. subst. f_equal. auto.
Qed.

Lemma randint_range (a b : Z) (t : Rand.tape) (i : nat) :
  a <= b -> a <= fst (Rand.randint a b t i) <= b.
Proof.
  intros H. unfold Rand.randint. simpl.
  pose proof (Z.mod_pos_bound (t i) (b - a + 1)). lia.
Qed.

End PyFacts.

(** ** The dashboard's engine block *)

Section DashboardFacts.
Import Dashboard.

Lemma log_once_cases (a : string) (lg : list string) :
  (In a lg /\ log_once a lg = lg) \/ (~ In a lg /\ log_once a lg = lg ++ [a]).
Proof.
  unfold log_once. destruct (Py.str_in a lg) eqn:E.
  - left. split; [now apply str_in_iff | reflexivity].
  - right. split; [now apply str_in_false | reflexivity].
Qed.

Lemma log_once_In (a : string) (lg : list string) : In a (log_once a lg).
Proof.
  destruct (log_once_cases a lg) as [[H ->]|[_ ->]]; [assumption|].
  apply in_or_app. right. now left.
Qed.

Lemma log_once_extends (a : string) (lg : list string) :
  exists suffix, log_once a lg = lg ++ suffix.
Proof.
  destruct (log_once_cases a lg) as [[_ ->]|[_ ->]].
  - exists []. now rewrite app_nil_r.
  - now exists [a].
Qed.

Lemma boost_not_elevate (dev : device) (s : Z) :
  signal_boost_msg dev s <> elevate_msg.
Proof. unfold signal_boost_msg, elevate_msg. simpl. discriminate. Qed.

Lemma signal_boost_msg_inj (dev : device) (s1 s2 : Z) :
  signal_boost_msg dev s1 = signal_boost_msg dev s2 -> s1 = s2.
Proof.
  unfold signal_boost_msg. intros H.
  apply append_cancel_l, append_cancel_l, append_cancel_l in H.
  apply append_cancel_r in H. now apply str_of_int_inj.
Qed.

End DashboardFacts.

Section DashboardEngine.
Import Dashboard.

(** When the elevation rule of the engine block fires. *)
Lemma ai_engine_elevates (dev : device) (s : Z) (tr : float) (lg : list string) :
  type dev = "Headphones" -> PrimFloat.ltb 5%float tr = true ->
  priority dev <> "CRITICAL" ->
  ai_engine dev s tr lg =
    (set_priority "CRITICAL" dev,
     log_once elevate_msg
       (if s <? -85 then log_once (signal_boost_msg dev s) lg else lg)).
Proof.
  intros Ht Hr Hp. unfold ai_engine.
  apply String.eqb_eq in Ht. apply String.eqb_neq in Hp.
  now rewrite Ht, Hr, Hp.
Qed.

Lemma ai_engine_keeps (dev : device) (s : Z) (tr : float) (lg : list string) :
  ~ (type dev = "Headphones" /\ PrimFloat.ltb 5%float tr = true
     /\ priority dev <> "CRITICAL") ->
  ai_engine dev s tr lg =
    (dev, if s <? -85 then log_once (signal_boost_msg dev s) lg else lg).
Proof.
  intros H. unfold ai_engine.
  destruct (String.eqb_spec (type dev) "Headphones") as [Ht|Ht]; simpl; [|reflexivity].
  destruct (PrimFloat.ltb 5 tr) eqn:Hr; simpl; [|reflexivity].
  destruct (String.eqb_spec (priority dev) "CRITICAL") as [Hp|Hp]; simpl; [reflexivity|].
  exfalso. apply H. auto.
Qed.

Lemma elevation_dec (dev : device) (tr : float) :
  (type dev = "Headphones" /\ PrimFloat.ltb 5%float tr = true
     /\ priority dev <> "CRITICAL")
  \/ ~ (type dev = "Headphones" /\ PrimFloat.ltb 5%float tr = true
     /\ priority dev <> "CRITICAL").
Proof.
  destruct (String.eqb_spec (type dev) "Headphones");
    destruct (PrimFloat.ltb 5 tr);
    destruct (String.eqb_spec (priority dev) "CRITICAL"); intuition congruence.
Qed.

Lemma ai_engine_name (dev : device) (s : Z) (tr : float) (lg : list string) :
  name (fst (ai_engine dev s tr lg)) = name dev.
Proof.
  destruct (elevation_dec dev tr) as [[H1 [H2 H3]]|H].
  - now rewrite ai_engine_elevates.
  - now rewrite ai_engine_keeps.
Qed.

Lemma ai_engine_extends (dev : device) (s : Z) (tr : float) (lg : list string) :
  exists suffix, snd (ai_engine dev s tr lg) = lg ++ suffix.
Proof.
  assert (H1 : exists s1, (if s <? -85 then log_once (signal_boost_msg dev s) lg else lg)
                          = lg ++ s1).
  { destruct (s <? -85); [apply log_once_extends|].
    exists []. now rewrite app_nil_r. }
  destruct H1 as [s1 H1].
  destruct (elevation_dec dev tr) as [[Ha [Hb Hc]]|H].
  - rewrite ai_engine_elevates by assumption. simpl. rewrite H1.
    destruct (log_once_extends elevate_msg (lg ++ s1)) as [s2 ->].
    exists (s1 ++ s2). now rewrite app_assoc.
  - rewrite ai_engine_keeps by assumption. simpl. now exists s1.
Qed.

(** After an evaluation with a low reading the message for that reading is
    in the log. *)
Lemma ai_engine_logs_boost (dev : device) (s : Z) (tr : float) (lg : list string) :
  s < -85 -> In (signal_boost_msg dev s) (snd (ai_engine dev s tr lg)).
Proof.
  intros Hs. apply Z.ltb_lt in Hs.
  destruct (elevation_dec dev tr) as [[Ha [Hb Hc]]|H].
  - rewrite ai_engine_elevates by assumption. simpl. rewrite Hs.
    destruct (log_once_extends elevate_msg
                (log_once (signal_boost_msg dev s) lg)) as [s2 ->].
    apply in_or_app. left. apply log_once_In.
  - rewrite ai_engine_keeps by assumption. simpl. rewrite Hs. apply log_once_In.
Qed.

(** An evaluation whose boost message is already logged appends nothing
    but, possibly, the elevation message. *)
Lemma ai_engine_logged_reading (dev : device) (s : Z) (tr : float) (lg : list string) :
  In (signal_boost_msg dev s) lg ->
  snd (ai_engine dev s tr lg) = lg \/ snd (ai_engine dev s tr lg) = lg ++ [elevate_msg].
Proof.
  intros Hin.
  assert (H1 : (if s <? -85 then log_once (signal_boost_msg dev s) lg else lg) = lg).
  { destruct (s <? -85); [|reflexivity].
    destruct (log_once_cases (signal_boost_msg dev s) lg) as [[_ E]|[N _]];
      [assumption | contradiction]. }
  destruct (elevation_dec dev tr) as [[Ha [Hb Hc]]|H].
  - rewrite ai_engine_elevates by assumption. simpl. rewrite H1.
    destruct (log_once_cases elevate_msg lg) as [[_ ->]|[_ ->]]; auto.
  - rewrite ai_engine_keeps by assumption. simpl. rewrite H1. now left.
Qed.

(** A reading at or above -85 appends nothing but, possibly, the elevation
    message. *)
Lemma ai_engine_high_reading (dev : device) (s : Z) (tr : float) (lg : list string) :
  -85 <= s ->
  snd (ai_engine dev s tr lg) = lg \/ snd (ai_engine dev s tr lg) = lg ++ [elevate_msg].
Proof.
  intros Hs. apply Z.ltb_ge in Hs.
  destruct (elevation_dec dev tr) as [[Ha [Hb Hc]]|H].
  - rewrite ai_engine_elevates by assumption. simpl. rewrite Hs.
    destruct (log_once_cases elevate_msg lg) as [[_ ->]|[_ ->]]; auto.
  - rewrite ai_engine_keeps by assumption. simpl. rewrite Hs. now left.
Qed.

(** A low reading whose message is not logged yet appends it. *)
Lemma ai_engine_new_reading (dev : device) (s : Z) (tr : float) (lg : list string) :
  s < -85 -> ~ In (signal_boost_msg dev s) lg ->
  exists tail, snd (ai_engine dev s tr lg) = lg ++ signal_boost_msg dev s :: tail.
Proof.
  intros Hs Hn. apply Z.ltb_lt in Hs.
  assert (H1 : log_once (signal_boost_msg dev s) lg = lg ++ [signal_boost_msg dev s]).
  { destruct (log_once_cases (signal_boost_msg dev s) lg) as [[I _]|[_ E]];
      [contradiction | assumption]. }
  destruct (elevation_dec dev tr) as [[Ha [Hb Hc]]|H].
  - rewrite ai_engine_elevates by assumption. simpl. rewrite Hs, H1.
    destruct (log_once_cases elevate_msg (lg ++ [signal_boost_msg dev s]))
      as [[_ ->]|[_ ->]].
    + now exists [].
    + exists [elevate_msg]. now rewrite <- app_assoc.
  - rewrite ai_engine_keeps by assumption. simpl. rewrite Hs, H1. now exists [].
Qed.

End DashboardEngine.

(** ** The driver's optimisation pass *)

Section DriverRules.
Import Driver.

Lemma audio_detected_iff (dev : device) :
  audio_detected dev = true <->
  type dev = "Bluetooth Headphones" /\ priority dev <> "CRITICAL".
Proof.
  unfold audio_detected. rewrite andb_true_iff, negb_true_iff.
  rewrite String.eqb_eq, String.eqb_neq. tauto.
Qed.

Lemma weak_signal_iff (dev : device) :
  weak_signal dev = true <-> signal dev < -80.
Proof. apply Z.ltb_lt. Qed.

Lemma rule_power_shape (dev : device) (st : stats) (out : list string)
      (t : Rand.tape) (i : nat) :
  exists pw : bool,
    (pw = true -> type dev = "Air Conditioner") /\
    fst (rule_power (dev, st, out) t i) =
      (dev, if pw then count_optimization st else st,
       out ++ (if pw then [power_msg] else [])).
Proof.
  unfold rule_power.
  destruct (String.eqb_spec (type dev) "Air Conditioner") as [Ht|Ht].
  - unfold Rand.bind, Rand.random.
    match goal with |- context [PrimFloat.ltb ?a ?b] =>
      destruct (PrimFloat.ltb a b) end.
    + exists true. split; [auto | reflexivity].
    + exists false. split; [discriminate | simpl; now rewrite app_nil_r].
  - exists false. split; [discriminate | simpl; now rewrite app_nil_r].
Qed.

(** What one device's pass does, in one equation: [pw] tells whether the
    compressor-start test succeeded, which needs an air conditioner. *)
Lemma optimize_device_shape (dev : device) (st : stats) (out : list string)
      (t : Rand.tape) (i : nat) :
  exists pw : bool,
    (pw = true -> type dev = "Air Conditioner") /\
    fst (optimize_device (dev, st, out) t i) =
      (elevated dev,
       mkStats (total_bytes st) (packets st)
               (ai_optimizations st + Z.b2z (audio_detected dev)
                + Z.b2z (weak_signal dev) + Z.b2z pw),
       out ++ (if audio_detected dev then [boost_priority_msg dev] else [])
           ++ (if weak_signal dev then [signal_boost_msg dev] else [])
           ++ (if pw then [power_msg] else [])).
Proof.
  unfold optimize_device, elevated.
  assert (E : exists dev1 st1 out1,
             rule_signal (rule_priority (dev, st, out)) = (dev1, st1, out1)
             /\ dev1 = (if audio_detected dev then set_priority "CRITICAL" dev else dev)
             /\ st1 = mkStats (total_bytes st) (packets st)
                        (ai_optimizations st + Z.b2z (audio_detected dev)
                         + Z.b2z (weak_signal dev))
             /\ out1 = out ++ (if audio_detected dev then [boost_priority_msg dev] else [])
                           ++ (if weak_signal dev then [signal_boost_msg dev] else [])).
  { unfold rule_priority.
    destruct (audio_detected dev) eqn:Ha; unfold rule_signal.
    - change (weak_signal (set_priority "CRITICAL" dev)) with (weak_signal dev).
      change (signal_boost_msg (set_priority "CRITICAL" dev))
        with (signal_boost_msg dev).
      destruct (weak_signal dev); do 3 eexists; (split; [reflexivity|]);
        destruct st; simpl; rewrite ?app_nil_r, <- ?app_assoc;
        repeat split; try reflexivity;
        unfold count_optimization; simpl; f_equal; lia.
    - destruct (weak_signal dev); do 3 eexists; (split; [reflexivity|]);
        destruct st; simpl; rewrite ?app_nil_r;
        repeat split; try reflexivity;
        unfold count_optimization; simpl; f_equal; lia. }
  destruct E as (dev1 & st1 & out1 & -> & Ed & Es & Eo).
  destruct (rule_power_shape dev1 st1 out1 t i) as (pw & Hpw & ->).
  exists pw. split.
  - intros H. specialize (Hpw H). subst dev1.
    now destruct (audio_detected dev).
  - subst. destruct pw; unfold count_optimization; simpl;
      rewrite ?app_nil_r, <- ?app_assoc, ?Z.add_0_r; reflexivity.
Qed.

Lemma optimize_device_cursor (a : acc) (t : Rand.tape) (i : nat) :
  (i <= snd (optimize_device a t i))%nat.
Proof.
  unfold optimize_device.
  destruct (rule_signal (rule_priority a)) as [[dev st] out].
  unfold rule_power. destruct (type dev =? "Air Conditioner")%string; simpl; [|lia].
  unfold Rand.bind, Rand.random.
  match goal with |- context [PrimFloat.ltb ?a ?b] =>
    destruct (PrimFloat.ltb a b) end; simpl; lia.
Qed.

(** The whole pass: the entries become [map elevated], every printed line
    is counted once in ["ai_optimizations"], and the lines are those of
    the three rules. *)
Lemma optimize_loop_shape (conns : list device) (st : stats)
      (out : list string) (t : Rand.tape) (i : nat) :
  exists lines : list string,
    fst (optimize_loop conns st out t i) =
      (map elevated conns,
       mkStats (total_bytes st) (packets st)
               (ai_optimizations st + Z.of_nat (List.length lines)),
       out ++ lines)
    /\ (forall d, In d conns -> audio_detected d = true ->
                  In (boost_priority_msg d) lines)
    /\ (forall d, In d conns -> weak_signal d = true ->
                  In (signal_boost_msg d) lines)
    /\ (forall l, In l lines ->
          exists d, In d conns /\
            ((audio_detected d = true /\ l = boost_priority_msg d)
             \/ (weak_signal d = true /\ l = signal_boost_msg d)
             \/ (type d = "Air Conditioner" /\ l = power_msg))).
Proof.
  revert st out i. induction conns as [|dev rest IH]; intros st out i.
  - exists []. simpl. rewrite app_nil_r, Z.add_0_r. destruct st.
    repeat split; try reflexivity; intros; contradiction.
  - simpl. unfold Rand.bind.
    destruct (optimize_device_shape dev st out t i) as (pw & Hpw & E).
    destruct (optimize_device (dev, st, out) t i) as [[[dev' st'] out'] j].
    simpl in E. injection E as -> -> ->.
    match goal with |- context [optimize_loop rest ?s ?o t j] =>
      destruct (IH s o j) as (lines & E & H1 & H2 & H3);
      destruct (optimize_loop rest s o t j) as [[[rest' st''] out''] k]
    end.
    simpl in E. injection E as -> -> ->. simpl.
    exists ((if audio_detected dev then [boost_priority_msg dev] else [])
            ++ (if weak_signal dev then [signal_boost_msg dev] else [])
            ++ (if pw then [power_msg] else []) ++ lines).
    split; [|split; [|split]].
    + f_equal; [f_equal|].
      * f_equal. rewrite !length_app.
        destruct (audio_detected dev), (weak_signal dev), pw; simpl; lia.
      * now rewrite <- !app_assoc.
    + intros d [<-|Hd] Ha.
      * rewrite Ha. now left.
      * apply in_or_app. right. apply in_or_app. right.
        apply in_or_app. right. auto.
    + intros d [<-|Hd] Hw.
      * apply in_or_app. right. rewrite Hw. now left.
      * apply in_or_app. right. apply in_or_app. right.
        apply in_or_app. right. auto.
    + intros l Hl.
      apply in_app_or in Hl as [Hl|Hl];
        [|apply in_app_or in Hl as [Hl|Hl];
          [|apply in_app_or in Hl as [Hl|Hl]]].
      * destruct (audio_detected dev) eqn:Ha; [|contradiction].
        destruct Hl as [<-|[]]. exists dev. split; [now left|]. now left.
      * destruct (weak_signal dev) eqn:Hw; [|contradiction].
        destruct Hl as [<-|[]]. exists dev. split; [now left|]. right. now left.
      * destruct pw; [|contradiction].
        destruct Hl as [<-|[]]. exists dev. split; [now left|]. right. right. auto.
      * destruct (H3 l Hl) as (d & Hd & Hc). exists d. split; [now right|assumption].
Qed.

End DriverRules.

(** ** The driver's connections and traffic *)

Section DriverState.
Import Driver.

Lemma repeatM_randint (n : nat) (a b : Z) (t : Rand.tape) (i : nat) :
  a <= b ->
  List.length (fst (repeatM n (Rand.randint a b) t i)) = n
  /\ Forall (fun x => a <= x <= b) (fst (repeatM n (Rand.randint a b) t i)).
Proof.
  intros Hab. revert i. induction n as [|n IH]; intros i; simpl.
  - split; [reflexivity | constructor].
  - unfold Rand.bind. simpl.
    destruct (IH (S i)) as [Hl Hf].
    destruct (repeatM n (Rand.randint a b) t (S i)) as [xs j]. simpl in *.
    split; [now rewrite Hl|]. constructor; [|assumption].
    pose proof (Z.mod_pos_bound (t i) (b - a + 1)). lia.
Qed.

(** [connect_mock_device] always appends one entry and changes nothing
    else. *)
Lemma connect_shape (nm : string) (ty : Z) (d : driver) (t : Rand.tape) (i : nat) :
  exists (bytes : list Z) (sig : Z),
    List.length bytes = 6%nat
    /\ Forall (fun b => 0 <= b <= 255) bytes
    /\ -90 <= sig <= -30
    /\ fst (connect_mock_device nm ty d t i) =
         mkDriver (active_connections d ++
                     [mkDevice nm (Py.join ":" (map Py.hex02 bytes))
                               (DEVICE_TYPES ty) ty "MEDIUM" sig 0%float
                               "Connected"])
                  (driver_stats d).
Proof.
  unfold connect_mock_device, Rand.bind.
  destruct (repeatM_randint 6 0 255 t i) as [Hl Hf]; [lia|].
  destruct (repeatM 6 (Rand.randint 0 255) t i) as [bytes j]. simpl in Hl, Hf.
  exists bytes, (fst (Rand.randint (-90) (-30) t j)).
  repeat split; try assumption; try (apply randint_range; lia).
Qed.

(** [simulate_traffic] rewrites every entry with the two values drawn for
    it; nothing is clamped and nothing can fail. *)
Lemma traffic_loop_shape (conns : list device) (st : stats) (t : Rand.tape) (i : nat) :
  Forall2 (fun d d' => exists p delta,
               100 <= p <= 5000 /\ -2 <= delta <= 2
               /\ d' = traffic_step p delta d)
          conns (fst (fst (traffic_loop conns st t i)))
  /\ packets (snd (fst (traffic_loop conns st t i)))
     = packets st + Z.of_nat (List.length conns)
  /\ ai_optimizations (snd (fst (traffic_loop conns st t i)))
     = ai_optimizations st.
Proof.
  revert st i. induction conns as [|dev rest IH]; intros st i.
  - simpl. repeat split; [constructor | lia].
  - cbn [traffic_loop]. unfold Rand.bind. cbn [Rand.randint].
    match goal with |- context [traffic_loop rest ?s t ?j] =>
      destruct (IH s j) as (H1 & H2 & H3);
      destruct (traffic_loop rest s t j) as [[rest' st'] k]
    end.
    unfold Rand.ret. cbn [fst snd] in *. split; [|split].
    + constructor; [|assumption].
      eexists _, _. split; [|split; [|reflexivity]].
      * pose proof (Z.mod_pos_bound (t i) (5000 - 100 + 1)). lia.
      * pose proof (Z.mod_pos_bound (t (S i)) (2 - -2 + 1)). lia.
    + rewrite H2. cbn [List.length count_packet packets]. lia.
    + rewrite H3. reflexivity.
Qed.

Lemma simulate_traffic_shape (d : driver) (t : Rand.tape) (i : nat) :
  Forall2 (fun e e' => exists p delta,
               100 <= p <= 5000 /\ -2 <= delta <= 2
               /\ e' = traffic_step p delta e)
          (active_connections d)
          (active_connections (fst (simulate_traffic d t i))).
Proof.
  unfold simulate_traffic, Rand.bind.
  pose proof (traffic_loop_shape (active_connections d) (driver_stats d) t i)
    as (H & _).
  destruct (traffic_loop (active_connections d) (driver_stats d) t i)
    as [[conns st] j].
  exact H.
Qed.

Lemma run_ai_optimization_shape (d : driver) (t : Rand.tape) (i : nat) :
  exists lines : list string,
    fst (run_ai_optimization d t i) =
      (mkDriver (map elevated (active_connections d))
                (mkStats (total_bytes (driver_stats d)) (packets (driver_stats d))
                         (ai_optimizations (driver_stats d)
                          + Z.of_nat (List.length lines))),
       lines)
    /\ (forall e, In e (active_connections d) -> audio_detected e = true ->
                  In (boost_priority_msg e) lines)
    /\ (forall e, In e (active_connections d) -> weak_signal e = true ->
                  In (signal_boost_msg e) lines)
    /\ (forall l, In l lines ->
          exists e, In e (active_connections d) /\
            ((audio_detected e = true /\ l = boost_priority_msg e)
             \/ (weak_signal e = true /\ l = signal_boost_msg e)
             \/ (type e = "Air Conditioner" /\ l = power_msg))).
Proof.
  unfold run_ai_optimization, Rand.bind.
  destruct (optimize_loop_shape (active_connections d) (driver_stats d) [] t i)
    as (lines & E & H).
  destruct (optimize_loop (active_connections d) (driver_stats d) [] t i)
    as [[[conns st] out] j].
  simpl in E. injection E as -> -> ->.
  exists lines. split; [reflexivity | exact H].
Qed.

End DriverState.

(** ** Where the driver's pass depends on the random tape *)

Section DriverTape.
Import Driver.

Lemma optimize_device_no_ac (dev : device) (st : stats) (out : list string)
      (t : Rand.tape) (i : nat) :
  type dev <> "Air Conditioner" ->
  optimize_device (dev, st, out) t i =
    (rule_signal (rule_priority (dev, st, out)), i).
Proof.
  intros Ht. unfold optimize_device.
  assert (E : exists st1 out1 dev1,
             rule_signal (rule_priority (dev, st, out)) = (dev1, st1, out1)
             /\ type dev1 = type dev).
  { unfold rule_priority, rule_signal.
    destruct (audio_detected dev);
      [ change (weak_signal (set_priority "CRITICAL" dev)) with (weak_signal dev) |];
      destruct (weak_signal dev); do 3 eexists; split; reflexivity. }
  destruct E as (st1 & out1 & dev1 & -> & Hty).
  unfold rule_power. rewrite Hty.
  apply String.eqb_neq in Ht. now rewrite Ht.
Qed.

(** Without an air conditioner the pass never reads the tape. *)
Lemma optimize_loop_no_ac (conns : list device) (st : stats) (out : list string)
      (t1 t2 : Rand.tape) (i1 i2 : nat) :
  (forall d, In d conns -> type d <> "Air Conditioner") ->
  fst (optimize_loop conns st out t1 i1) = fst (optimize_loop conns st out t2 i2).
Proof.
  revert st out i1 i2. induction conns as [|dev rest IH]; intros st out i1 i2 H.
  - reflexivity.
  - cbn [optimize_loop]. unfold Rand.bind.
    rewrite !optimize_device_no_ac by (apply H; now left).
    destruct (rule_signal (rule_priority (dev, st, out))) as [[dev' st'] out'].
    assert (E := IH st' out' i1 i2 (fun d Hd => H d (or_intror Hd))).
    destruct (optimize_loop rest st' out' t1 i1) as [[[r1 s1] o1] k1].
    destruct (optimize_loop rest st' out' t2 i2) as [[[r2 s2] o2] k2].
    simpl in E. injection E as -> -> ->. reflexivity.
Qed.

(** Two tapes that agree from the cursor on give the same pass. *)
Lemma optimize_loop_ext (conns : list device) (st : stats) (out : list string)
      (t1 t2 : Rand.tape) (i : nat) :
  (forall k, (i <= k)%nat -> t1 k = t2 k) ->
  optimize_loop conns st out t1 i = optimize_loop conns st out t2 i.
Proof.
  revert st out i. induction conns as [|dev rest IH]; intros st out i H.
  - reflexivity.
  - cbn [optimize_loop]. unfold Rand.bind.
    assert (E : optimize_device (dev, st, out) t1 i
                = optimize_device (dev, st, out) t2 i).
    { unfold optimize_device.
      destruct (rule_signal (rule_priority (dev, st, out))) as [[d1 s1] o1].
      unfold rule_power.
      destruct (type d1 =? "Air Conditioner")%string; [|reflexivity].
      unfold Rand.bind, Rand.random.
      rewrite (H i (Nat.le_refl i)).
      match goal with |- context [PrimFloat.ltb ?a ?b] =>
        destruct (PrimFloat.ltb a b) end; reflexivity. }
    rewrite <- E.
    pose proof (optimize_device_cursor (dev, st, out) t1 i) as Hc.
    destruct (optimize_device (dev, st, out) t1 i) as [[[dev' st'] out'] j].
    simpl in Hc.
    rewrite (IH st' out' j) by (intros k Hk; apply H; lia).
    destruct (optimize_loop rest st' out' t2 j) as [[[r2 s2] o2] k2].
    reflexivity.
Qed.

Lemma elevated_signal (dev : device) : signal (elevated dev) = signal dev.
Proof. unfold elevated. now destruct (audio_detected dev). Qed.

Lemma elevated_name (dev : device) : name (elevated dev) = name dev.
Proof. unfold elevated. now destruct (audio_detected dev). Qed.

Lemma elevated_priority (dev : device) :
  priority (elevated dev) = priority dev \/ priority (elevated dev) = "CRITICAL".
Proof. unfold elevated. destruct (audio_detected dev); simpl; auto. Qed.

Lemma elevated_changes_iff (dev : device) :
  priority (elevated dev) <> priority dev <-> audio_detected dev = true.
Proof.
  unfold elevated. destruct (audio_detected dev) eqn:E; simpl.
  - apply audio_detected_iff in E as [_ E]. split; [reflexivity|].
    intros _ H. now apply E.
  - split; [intros H; now elim H | discriminate].
Qed.

End DriverTape.

(** ** Signal levels along [main] *)

Section DriverSignals.
Import Driver.

Lemma simulate_traffic_range (lo hi : Z) (d : driver) (t : Rand.tape) (i : nat) :
  Forall (fun e => lo <= signal e <= hi) (active_connections d) ->
  Forall (fun e => lo - 2 <= signal e <= hi + 2)
         (active_connections (fst (simulate_traffic d t i))).
Proof.
  intros H. pose proof (simulate_traffic_shape d t i) as F.
  induction F as [|e e' l l' (p & dl & Hp & Hd & ->) F IH].
  - constructor.
  - inversion H; subst. constructor; [simpl; lia | auto].
Qed.

Lemma run_ai_optimization_range (lo hi : Z) (d : driver) (t : Rand.tape) (i : nat) :
  Forall (fun e => lo <= signal e <= hi) (active_connections d) ->
  Forall (fun e => lo <= signal e <= hi)
         (active_connections (fst (fst (run_ai_optimization d t i)))).
Proof.
  intros H. destruct (run_ai_optimization_shape d t i) as (lines & -> & _).
  simpl. apply Forall_map. eapply Forall_impl; [|exact H].
  intros e He. now rewrite elevated_signal.
Qed.

Lemma main_cycle_range (lo hi k : Z) (s : driver * list string)
      (t : Rand.tape) (i : nat) :
  Forall (fun e => lo <= signal e <= hi) (active_connections (fst s)) ->
  Forall (fun e => lo - 2 <= signal e <= hi + 2)
         (active_connections (fst (fst (main_cycle k s t i)))).
Proof.
  destruct s as [d out]. simpl. intros H. unfold Rand.bind.
  pose proof (simulate_traffic_range lo hi d t i H) as H1.
  destruct (simulate_traffic d t i) as [d1 j]. simpl in H1.
  destruct (k mod 2 =? 0); [|exact H1].
  unfold Rand.bind.
  pose proof (run_ai_optimization_range _ _ d1 t j H1) as H2.
  destruct (run_ai_optimization d1 t j) as [[d2 lines] m]. exact H2.
Qed.

Lemma for_range_main_cycle_range (n : nat) (lo hi k : Z)
      (s : driver * list string) (t : Rand.tape) (i : nat) :
  Forall (fun e => lo <= signal e <= hi) (active_connections (fst s)) ->
  Forall (fun e => lo - 2 * Z.of_nat n <= signal e <= hi + 2 * Z.of_nat n)
         (active_connections (fst (fst (for_range n k main_cycle s t i)))).
Proof.
  revert lo hi k s i. induction n as [|n IH]; intros lo hi k s i H.
  - simpl. eapply Forall_impl; [|exact H]. simpl. intros; lia.
  - cbn [for_range]. unfold Rand.bind.
    pose proof (main_cycle_range lo hi k s t i H) as H1.
    destruct (main_cycle k s t i) as [s' j]. simpl in H1.
    specialize (IH _ _ (k + 1) s' j H1).
    eapply Forall_impl; [|exact IH]. intros e He. cbv beta in *. lia.
Qed.

Lemma connect_keeps_range (lo hi : Z) (nm : string) (ty : Z) (d : driver)
      (t : Rand.tape) (i : nat) :
  lo <= -90 -> -30 <= hi ->
  Forall (fun e => lo <= signal e <= hi) (active_connections d) ->
  Forall (fun e => lo <= signal e <= hi)
         (active_connections (fst (connect_mock_device nm ty d t i))).
Proof.
  intros Hlo Hhi H.
  destruct (connect_shape nm ty d t i) as (bytes & sig & _ & _ & Hs & ->).
  simpl. apply Forall_app. split; [assumption|].
  constructor; [simpl; lia | constructor].
Qed.

Lemma connect_all_range (t : Rand.tape) (i : nat) :
  Forall (fun e => -90 <= signal e <= -30)
         (active_connections (fst (connect_all t i))).
Proof.
  unfold connect_all, Rand.bind.
  assert (H0 : Forall (fun e => -90 <= signal e <= -30) (active_connections init))
    by constructor.
  pose proof (connect_keeps_range (-90) (-30) "Living Room AC" 1 init t i
                (Z.le_refl _) (Z.le_refl _) H0) as H1.
  destruct (connect_mock_device "Living Room AC" 1 init t i) as [d1 i1].
  pose proof (connect_keeps_range (-90) (-30) "Kitchen Fridge" 2 d1 t i1
                (Z.le_refl _) (Z.le_refl _) H1) as H2.
  destruct (connect_mock_device "Kitchen Fridge" 2 d1 t i1) as [d2 i2].
  pose proof (connect_keeps_range (-90) (-30) "Sony XM4" 4 d2 t i2
                (Z.le_refl _) (Z.le_refl _) H2) as H3.
  destruct (connect_mock_device "Sony XM4" 4 d2 t i2) as [d3 i3].
  pose proof (connect_keeps_range (-90) (-30) "Samsung S23" 5 d3 t i3
                (Z.le_refl _) (Z.le_refl _) H3) as H4.
  destruct (connect_mock_device "Samsung S23" 5 d3 t i3) as [d4 i4].
  exact (connect_keeps_range (-90) (-30) "Sony Bravia TV" 3 d4 t i4
           (Z.le_refl _) (Z.le_refl _) H4).
Qed.

Lemma main_signal_range (t : Rand.tape) (i : nat) :
  Forall (fun e => -100 <= signal e <= -20)
         (active_connections (fst (fst (main t i)))).
Proof.
  unfold main, Rand.bind.
  pose proof (connect_all_range t i) as H.
  destruct (connect_all t i) as [d j]. simpl in H.
  pose proof (for_range_main_cycle_range 5 (-90) (-30) 0 (d, []) t j H) as H1.
  eapply Forall_impl; [|exact H1]. simpl. intros; lia.
Qed.

End DriverSignals.

(** ** The dashboard's loops *)

Section DashboardLoops.
Import Dashboard.

Lemma device_step_shape (dev : device) (lg : list string) (t : Rand.tape) (i : nat) :
  exists (s : Z) (tr : float),
    -95 <= s <= -30
    /\ device_step dev lg t i = (ai_engine dev s tr lg, S (S i)).
Proof.
  unfold device_step, Rand.bind, Rand.randint.
  exists (-95 + t i mod (-30 - -95 + 1)).
  destruct (negb (priority dev =? "LOW")%string);
    unfold Rand.uniform, Rand.bind, Rand.random, Rand.ret;
    eexists; (split; [|reflexivity]);
    pose proof (Z.mod_pos_bound (t i) (-30 - -95 + 1)); lia.
Qed.

Lemma ai_engine_moved (dev : device) (s : Z) (tr : float) (lg : list string) :
  Obs.dash_moved (snd (ai_engine dev s tr lg)) dev (fst (ai_engine dev s tr lg)).
Proof.
  destruct (elevation_dec dev tr) as [[Ha [Hb Hc]]|H].
  - right. rewrite ai_engine_elevates by assumption. simpl.
    repeat split; try assumption. apply log_once_In.
  - left. now rewrite ai_engine_keeps.
Qed.

Lemma dash_moved_later (lg suffix : list string) (d d' : device) :
  Obs.dash_moved lg d d' -> Obs.dash_moved (lg ++ suffix) d d'.
Proof.
  intros [H|(H1 & H2 & H3 & H4)]; [now left | right].
  repeat split; try assumption. apply in_or_app. now left.
Qed.

Lemma dash_moved_trans (lg : list string) (d1 d2 d3 : device) :
  Obs.dash_moved lg d1 d2 -> Obs.dash_moved lg d2 d3 -> Obs.dash_moved lg d1 d3.
Proof.
  intros [->|(H1 & H2 & -> & H4)] H; [assumption|].
  destruct H as [->|(_ & N & _)].
  - right. auto.
  - exfalso. now apply N.
Qed.

Lemma device_loop_shape (devs : list device) (lg : list string)
      (t : Rand.tape) (i : nat) :
  (exists suffix, snd (fst (device_loop devs lg t i)) = lg ++ suffix)
  /\ Forall2 (Obs.dash_moved (snd (fst (device_loop devs lg t i))))
             devs (fst (fst (device_loop devs lg t i))).
Proof.
  revert lg i. induction devs as [|dev rest IH]; intros lg i.
  - simpl. split; [exists []; now rewrite app_nil_r | constructor].
  - cbn [device_loop]. unfold Rand.bind.
    destruct (device_step_shape dev lg t i) as (s & tr & _ & ->).
    pose proof (ai_engine_extends dev s tr lg) as [s1 E1].
    pose proof (ai_engine_moved dev s tr lg) as M.
    destruct (ai_engine dev s tr lg) as [dev' lg1]. simpl in E1, M.
    destruct (IH lg1 (S (S i))) as [[s2 E2] F].
    destruct (device_loop rest lg1 t (S (S i))) as [[rest' lg2] j].
    unfold Rand.ret. simpl in *. subst lg1 lg2. split.
    + exists (s1 ++ s2). now rewrite app_assoc.
    + constructor; [now apply dash_moved_later | assumption].
Qed.

Lemma Forall2_dash_moved_later (lg suffix : list string) (l l' : list device) :
  Forall2 (Obs.dash_moved lg) l l' -> Forall2 (Obs.dash_moved (lg ++ suffix)) l l'.
Proof.
  induction 1; constructor; [now apply dash_moved_later | assumption].
Qed.

Lemma Forall2_dash_moved_trans (lg : list string) (l1 l2 l3 : list device) :
  Forall2 (Obs.dash_moved lg) l1 l2 -> Forall2 (Obs.dash_moved lg) l2 l3 ->
  Forall2 (Obs.dash_moved lg) l1 l3.
Proof.
  intros H. revert l3. induction H as [|a b l l' Hab H IH]; intros l3 H3.
  - inversion H3. constructor.
  - inversion H3; subst. constructor; [eapply dash_moved_trans; eauto | auto].
Qed.

Lemma Forall2_dash_moved_refl (lg : list string) (l : list device) :
  Forall2 (Obs.dash_moved lg) l l.
Proof. induction l; constructor; [now left | assumption]. Qed.

Lemma cycle_shape (s : state) (t : Rand.tape) (i : nat) :
  (exists suffix, logs (fst (cycle s t i)) = logs s ++ suffix)
  /\ Forall2 (Obs.dash_moved (logs (fst (cycle s t i))))
             (devices s) (devices (fst (cycle s t i)))
  /\ shown (fst (cycle s t i)) = shown s ++ [recent (logs (fst (cycle s t i)))].
Proof.
  unfold cycle, Rand.bind.
  destruct (device_loop_shape (devices s) (logs s) t i) as [E F].
  destruct (device_loop (devices s) (logs s) t i) as [[devs lg] j].
  simpl in *. auto.
Qed.

Lemma cycles_shape (n : nat) (s : state) (t : Rand.tape) (i : nat) :
  (exists suffix, logs (fst (cycles n s t i)) = logs s ++ suffix)
  /\ Forall2 (Obs.dash_moved (logs (fst (cycles n s t i))))
             (devices s) (devices (fst (cycles n s t i))).
Proof.
  revert s i. induction n as [|n IH]; intros s i.
  - simpl. split; [exists []; now rewrite app_nil_r|].
    apply Forall2_dash_moved_refl.
  - cbn [cycles]. unfold Rand.bind.
    destruct (cycle_shape s t i) as ([s1 E1] & F1 & _).
    destruct (cycle s t i) as [s' j]. simpl in E1, F1.
    destruct (IH s' j) as ([s2 E2] & F2).
    split.
    + exists (s1 ++ s2). now rewrite E2, E1, app_assoc.
    + eapply Forall2_dash_moved_trans; [|exact F2].
      rewrite E2. now apply Forall2_dash_moved_later.
Qed.

End DashboardLoops.

(** ** Message texts *)

Section Messages.

Lemma dash_boost_msg_name (d1 d2 : Dashboard.device) (s : Z) :
  Dashboard.name d1 = Dashboard.name d2 ->
  Dashboard.signal_boost_msg d1 s = Dashboard.signal_boost_msg d2 s.
Proof. unfold Dashboard.signal_boost_msg. now intros ->. Qed.

(** Every entry of the log after an evaluation was there before or is one
    of the two messages of this evaluation. *)
Lemma ai_engine_entries (dev : Dashboard.device) (s : Z) (tr : float)
      (lg : list string) (x : string) :
  In x (snd (Dashboard.ai_engine dev s tr lg)) ->
  In x lg
  \/ (s < -85 /\ x = Dashboard.signal_boost_msg dev s)
  \/ x = Dashboard.elevate_msg.
Proof.
  assert (H1 : forall y,
             In y (if s <? -85
                   then Dashboard.log_once (Dashboard.signal_boost_msg dev s) lg
                   else lg) ->
             In y lg \/ (s < -85 /\ y = Dashboard.signal_boost_msg dev s)).
  { intros y. destruct (Z.ltb_spec s (-85)) as [Hs|Hs]; [|auto].
    destruct (log_once_cases (Dashboard.signal_boost_msg dev s) lg)
      as [[_ ->]|[_ ->]]; [auto|].
    intros Hy. apply in_app_or in Hy as [Hy|[<-|[]]]; auto. }
  destruct (elevation_dec dev tr) as [[Ha [Hb Hc]]|H].
  - rewrite ai_engine_elevates by assumption. simpl.
    match goal with |- In x (Dashboard.log_once _ ?l) -> _ =>
      destruct (log_once_cases Dashboard.elevate_msg l) as [[_ ->]|[_ ->]]
    end.
    + intros Hx. destruct (H1 x Hx); auto.
    + intros Hx. apply in_app_or in Hx as [Hx|[<-|[]]]; [|auto].
      destruct (H1 x Hx); auto.
  - rewrite ai_engine_keeps by assumption. simpl.
    intros Hx. destruct (H1 x Hx); auto.
Qed.

Lemma driver_signal_not_priority (d1 d2 : Driver.device) :
  Driver.signal_boost_msg d1 <> Driver.boost_priority_msg d2.
Proof.
  unfold Driver.signal_boost_msg, Driver.boost_priority_msg. simpl. discriminate.
Qed.

Lemma driver_signal_not_power (d : Driver.device) :
  Driver.signal_boost_msg d <> Driver.power_msg.
Proof. unfold Driver.signal_boost_msg, Driver.power_msg. simpl. discriminate. Qed.

Lemma driver_signal_msg_elevated (d : Driver.device) :
  Driver.signal_boost_msg (Driver.elevated d) = Driver.signal_boost_msg d.
Proof.
  unfold Driver.signal_boost_msg. now rewrite elevated_name, elevated_signal.
Qed.

End Messages.

(** ** Suppression of repeated signal-boost actions *)

(** C1, as stated, fails on both scripts.  Dashboard: the Sony XM4 reads
    -90 dBm and then -91 dBm, so the low-signal condition holds throughout,
    and the log receives a second signal-boost entry for the same device.
    Driver: two passes in a row over one unchanged entry at -90 dBm print
    the same Signal Boost line twice and count two optimisations. *)
Lemma C1_boost_repeated_while_signal_stays_low :
  (let xm4 := Dashboard.mkDevice "Sony XM4" "Headphones" "A8:11:7F:32:01:45" "HIGH" 0 in
   let r1 := Dashboard.ai_engine xm4 (-90) 1%float [] in
   let r2 := Dashboard.ai_engine (fst r1) (-91) 1%float (snd r1) in
   snd r1 = ["AI ACTION: Signal boost for Sony XM4 (-90dBm)"]
   /\ snd r2 = ["AI ACTION: Signal boost for Sony XM4 (-90dBm)";
                "AI ACTION: Signal boost for Sony XM4 (-91dBm)"])
  /\
  (let fridge := Driver.mkDevice "Kitchen Fridge" "c1:44:8e:20:bc:99" "Refrigerator" 2
                                 "MEDIUM" (-90) 0%float "Connected" in
   let d0 := Driver.mkDriver [fridge] (Driver.mkStats 0 0 0) in
   let r1 := Rand.run (Driver.run_ai_optimization d0) (Rand.replay []) in
   let r2 := Rand.run (Driver.run_ai_optimization (fst r1)) (Rand.replay []) in
   Driver.active_connections (fst r1) = [fridge]
   /\ snd r1 = ["  > AI ACTION: Initiating Signal Boost for 'Kitchen Fridge' (Weak Signal: -90dBm)"]
   /\ snd r2 = snd r1
   /\ Driver.ai_optimizations (Driver.driver_stats (fst r2)) = 2).
Proof. vm_compute. repeat split. Qed.

(** C1, amended.  The dashboard suppresses an action only when the very
    same message text (device name and reading) is already in the log:
    (1) a later evaluation of the device with the same reading appends no
    signal-boost entry, whatever was logged in between; (2) a different
    reading below -85 that is not logged yet appends a new entry although the
    device already has one.  (3) The driver script suppresses nothing: every
    pass prints and counts a Signal Boost for every entry below -80 dBm, and
    so does the next pass over the resulting state. *)
Theorem C1_suppression_is_by_identical_message :
  (forall (dev : Dashboard.device) (s : Z) (t1 t2 : float) (lg extra : list string),
      s < -85 ->
      let r1 := Dashboard.ai_engine dev s t1 lg in
      let r2 := Dashboard.ai_engine (fst r1) s t2 (snd r1 ++ extra) in
      In (Dashboard.signal_boost_msg dev s) (snd r1)
      /\ (snd r2 = snd r1 ++ extra
          \/ snd r2 = (snd r1 ++ extra) ++ [Dashboard.elevate_msg]))
  /\
  (forall (dev : Dashboard.device) (s1 s2 : Z) (t1 t2 : float) (lg : list string),
      s1 < -85 -> s2 < -85 -> s1 <> s2 ->
      ~ In (Dashboard.signal_boost_msg dev s2) lg ->
      let r1 := Dashboard.ai_engine dev s1 t1 lg in
      let r2 := Dashboard.ai_engine (fst r1) s2 t2 (snd r1) in
      In (Dashboard.signal_boost_msg dev s1) (snd r1)
      /\ exists tail, snd r2 = snd r1 ++ Dashboard.signal_boost_msg dev s2 :: tail)
  /\
  (forall (d : Driver.driver) (e : Driver.device) (t1 t2 : Rand.tape) (i1 i2 : nat),
      In e (Driver.active_connections d) -> Driver.signal e < -80 ->
      let r1 := fst (Driver.run_ai_optimization d t1 i1) in
      let r2 := fst (Driver.run_ai_optimization (fst r1) t2 i2) in
      In (Driver.signal_boost_msg e) (snd r1)
      /\ In (Driver.signal_boost_msg e) (snd r2)
      /\ Driver.ai_optimizations (Driver.driver_stats (fst r2))
         >= Driver.ai_optimizations (Driver.driver_stats d) + 2).
Proof.
  split; [|split].
  - intros dev s t1 t2 lg extra Hs r1 r2.
    assert (Hin : In (Dashboard.signal_boost_msg dev s) (snd r1))
      by (apply ai_engine_logs_boost; assumption).
    split; [assumption|]. subst r2.
    apply ai_engine_logged_reading.
    rewrite (dash_boost_msg_name (fst r1) dev) by apply ai_engine_name.
    apply in_or_app. now left.
  - intros dev s1 s2 t1 t2 lg H1 H2 Hne Hnot r1 r2.
    split; [apply ai_engine_logs_boost; assumption|].
    subst r2.
    rewrite <- (dash_boost_msg_name (fst r1) dev s2) by apply ai_engine_name.
    apply ai_engine_new_reading; [assumption|].
    rewrite (dash_boost_msg_name (fst r1) dev) by apply ai_engine_name.
    intros Hin. apply ai_engine_entries in Hin as [Hin|[[_ Hin]|Hin]].
    + contradiction.
    + apply signal_boost_msg_inj in Hin. congruence.
    + now apply boost_not_elevate in Hin.
  - intros d e t1 t2 i1 i2 He Hs r1 r2.
    apply weak_signal_iff in Hs.
    destruct (run_ai_optimization_shape d t1 i1) as (l1 & E1 & _ & W1 & _).
    assert (I1 : In (Driver.signal_boost_msg e) l1) by auto.
    subst r2 r1. rewrite E1. cbn [fst snd].
    match goal with |- context [Driver.run_ai_optimization ?d1 t2 i2] =>
      destruct (run_ai_optimization_shape d1 t2 i2) as (l2 & E2 & _ & W2 & _)
    end.
    rewrite E2. cbn [fst snd Driver.driver_stats Driver.ai_optimizations] in *.
    assert (I2 : In (Driver.signal_boost_msg e) l2).
    { rewrite <- driver_signal_msg_elevated. apply W2.
      - now apply in_map.
      - unfold Driver.weak_signal in *. now rewrite elevated_signal. }
    repeat split; try assumption.
    destruct l1; [contradiction|]. destruct l2; [contradiction|].
    cbn [List.length]. lia.
Qed.

(** The three parts of the amended C1 at concrete inputs: the Sony XM4 read
    twice at -90 dBm, then at -90 and -91 dBm, and a fridge at -90 dBm in the
    driver. *)
Lemma C1_suppression_witness :
  (let xm4 := Dashboard.mkDevice "Sony XM4" "Headphones" "A8:11:7F:32:01:45" "HIGH" 0 in
   let r1 := Dashboard.ai_engine xm4 (-90) 1%float [] in
   let r2 := Dashboard.ai_engine (fst r1) (-90) 1%float (snd r1 ++ []) in
   In (Dashboard.signal_boost_msg xm4 (-90)) (snd r1)
   /\ (snd r2 = snd r1 ++ []
       \/ snd r2 = (snd r1 ++ []) ++ [Dashboard.elevate_msg]))
  /\
  (let xm4 := Dashboard.mkDevice "Sony XM4" "Headphones" "A8:11:7F:32:01:45" "HIGH" 0 in
   let r1 := Dashboard.ai_engine xm4 (-90) 1%float [] in
   let r2 := Dashboard.ai_engine (fst r1) (-91) 1%float (snd r1) in
   In (Dashboard.signal_boost_msg xm4 (-90)) (snd r1)
   /\ exists tail, snd r2 = snd r1 ++ Dashboard.signal_boost_msg xm4 (-91) :: tail)
  /\
  (let fridge := Driver.mkDevice "Kitchen Fridge" "c1:44:8e:20:bc:99" "Refrigerator" 2
                                 "MEDIUM" (-90) 0%float "Connected" in
   let d := Driver.mkDriver [fridge] (Driver.mkStats 0 0 0) in
   let r1 := fst (Driver.run_ai_optimization d (Rand.replay []) 0%nat) in
   let r2 := fst (Driver.run_ai_optimization (fst r1) (Rand.replay []) 0%nat) in
   In (Driver.signal_boost_msg fridge) (snd r1)
   /\ In (Driver.signal_boost_msg fridge) (snd r2)
   /\ Driver.ai_optimizations (Driver.driver_stats (fst r2))
      >= Driver.ai_optimizations (Driver.driver_stats d) + 2).
Proof.
  split; [|split].
  - apply (proj1 C1_suppression_is_by_identical_message
             (Dashboard.mkDevice "Sony XM4" "Headphones" "A8:11:7F:32:01:45" "HIGH" 0)
             (-90) 1%float 1%float [] []).
    lia.
  - apply (proj1 (proj2 C1_suppression_is_by_identical_message)
             (Dashboard.mkDevice "Sony XM4" "Headphones" "A8:11:7F:32:01:45" "HIGH" 0)
             (-90) (-91) 1%float 1%float []).
    + lia.
    + lia.
    + lia.
    + simpl. tauto.
  - apply (proj2 (proj2 C1_suppression_is_by_identical_message)
             (Driver.mkDriver
                [Driver.mkDevice "Kitchen Fridge" "c1:44:8e:20:bc:99" "Refrigerator" 2
                                 "MEDIUM" (-90) 0%float "Connected"]
                (Driver.mkStats 0 0 0))
             (Driver.mkDevice "Kitchen Fridge" "c1:44:8e:20:bc:99" "Refrigerator" 2
                              "MEDIUM" (-90) 0%float "Connected")
             (Rand.replay []) (Rand.replay []) 0%nat 0%nat).
    + simpl. left. reflexivity.
    + simpl. lia.
Defined.

(** ** The signal-boost rule *)

(** C2, as stated, fails on the driver script: an entry at -83 dBm is not
    below -85 dBm, and the pass prints and counts a Signal Boost for it (the
    driver's threshold is -80). *)
Lemma C2_driver_boosts_at_minus_83 :
  let phone := Driver.mkDevice "Samsung S23" "d9:92:1c:88:a3:21" "Mobile Phone" 5
                               "MEDIUM" (-83) 0%float "Connected" in
  ~ Driver.signal phone < -85
  /\ Rand.run (Driver.run_ai_optimization
                 (Driver.mkDriver [phone] (Driver.mkStats 0 0 0)))
              (Rand.replay [])
     = (Driver.mkDriver [phone] (Driver.mkStats 0 0 1),
        ["  > AI ACTION: Initiating Signal Boost for 'Samsung S23' (Weak Signal: -83dBm)"]).
Proof. split; [simpl; lia | vm_compute; reflexivity]. Qed.

(** C2, amended.  Dashboard: an evaluation adds the signal-boost message
    of its reading to the log exactly when the reading is below -85 and that
    message is not logged yet; in every case a reading below -85 has its
    message in the log afterwards, and a reading of -85 or more adds no
    signal-boost entry.  Driver: one device's pass prints its Signal Boost
    line exactly when the stored signal is below -80, and a whole pass prints
    it for every such entry, on every call. *)
Theorem C2_signal_boost_rule :
  (forall (dev : Dashboard.device) (s : Z) (tr : float) (lg : list string),
      let r := Dashboard.ai_engine dev s tr lg in
      ((In (Dashboard.signal_boost_msg dev s) (snd r)
        /\ ~ In (Dashboard.signal_boost_msg dev s) lg)
       <-> (s < -85 /\ ~ In (Dashboard.signal_boost_msg dev s) lg))
      /\ (s < -85 -> In (Dashboard.signal_boost_msg dev s) (snd r))
      /\ (-85 <= s -> snd r = lg \/ snd r = lg ++ [Dashboard.elevate_msg]))
  /\
  (forall (dev : Driver.device) (st : Driver.stats) (t : Rand.tape) (i : nat),
      In (Driver.signal_boost_msg dev)
         (snd (fst (Driver.optimize_device (dev, st, []) t i)))
      <-> Driver.signal dev < -80)
  /\
  (forall (d : Driver.driver) (e : Driver.device) (t : Rand.tape) (i : nat),
      In e (Driver.active_connections d) -> Driver.signal e < -80 ->
      In (Driver.signal_boost_msg e) (snd (fst (Driver.run_ai_optimization d t i)))).
Proof.
  split; [|split].
  - intros dev s tr lg r. split; [|split].
    + split.
      * intros [Hin Hnot]. split; [|assumption].
        apply ai_engine_entries in Hin as [Hin|[[Hs _]|Hin]].
        -- contradiction.
        -- assumption.
        -- now apply boost_not_elevate in Hin.
      * intros [Hs Hnot]. split; [|assumption].
        now apply ai_engine_logs_boost.
    + apply ai_engine_logs_boost.
    + apply ai_engine_high_reading.
  - intros dev st t i.
    destruct (optimize_device_shape dev st [] t i) as (pw & _ & ->).
    cbn [fst snd]. rewrite <- weak_signal_iff. split.
    + intros H. cbn [app] in H.
      apply in_app_or in H as [H|H].
      { destruct (Driver.audio_detected dev); [|contradiction].
        destruct H as [H|[]]. symmetry in H.
        now apply driver_signal_not_priority in H. }
      apply in_app_or in H as [H|H].
      { destruct (Driver.weak_signal dev); [reflexivity | contradiction]. }
      destruct pw; [|contradiction].
      destruct H as [H|[]]. symmetry in H.
      now apply driver_signal_not_power in H.
    + intros ->. cbn [app]. apply in_or_app. right. now left.
  - intros d e t i He Hs. apply weak_signal_iff in Hs.
    destruct (run_ai_optimization_shape d t i) as (lines & -> & _ & W & _).
    cbn [fst snd]. auto.
Qed.

(** The amended C2 at a fridge reading -90 dBm. *)
Lemma C2_signal_boost_witness :
  (let fridge := Dashboard.mkDevice "Kitchen Fridge" "Refrigerator" "C1:44:8E:20:BC:99"
                                    "MEDIUM" 0 in
   In (Dashboard.signal_boost_msg fridge (-90))
      (snd (Dashboard.ai_engine fridge (-90) 1%float [])))
  /\
  (let fridge := Driver.mkDevice "Kitchen Fridge" "c1:44:8e:20:bc:99" "Refrigerator" 2
                                 "MEDIUM" (-90) 0%float "Connected" in
   In (Driver.signal_boost_msg fridge)
      (snd (fst (Driver.run_ai_optimization
                   (Driver.mkDriver [fridge] (Driver.mkStats 0 0 0))
                   (Rand.replay []) 0%nat)))).
Proof.
  split.
  - apply (proj1 (proj2 (proj1 C2_signal_boost_rule
             (Dashboard.mkDevice "Kitchen Fridge" "Refrigerator" "C1:44:8E:20:BC:99"
                                 "MEDIUM" 0)
             (-90) 1%float []))).
    lia.
  - apply (proj2 (proj2 C2_signal_boost_rule)
             (Driver.mkDriver
                [Driver.mkDevice "Kitchen Fridge" "c1:44:8e:20:bc:99" "Refrigerator" 2
                                 "MEDIUM" (-90) 0%float "Connected"]
                (Driver.mkStats 0 0 0))
             (Driver.mkDevice "Kitchen Fridge" "c1:44:8e:20:bc:99" "Refrigerator" 2
                              "MEDIUM" (-90) 0%float "Connected")
             (Rand.replay []) 0%nat).
    + simpl. left. reflexivity.
    + simpl. lia.
Defined.

(** ** The priority-elevation rule *)

(** C3, as stated, fails on the driver script, whose rule has no rate
    condition: headphones that were just connected, with a data rate of 0,
    are raised to CRITICAL by the first pass. *)
Lemma C3_driver_elevates_without_traffic :
  let t := Rand.replay [168; 17; 127; 50; 1; 69; 40] in
  let d := Rand.run (Driver.connect_mock_device "Sony XM4" 4 Driver.init) t in
  let r := Rand.run (Driver.run_ai_optimization d) t in
  Driver.active_connections d
    = [Driver.mkDevice "Sony XM4" "a8:11:7f:32:01:45" "Bluetooth Headphones" 4
                       "MEDIUM" (-50) 0%float "Connected"]
  /\ Driver.active_connections (fst r)
    = [Driver.mkDevice "Sony XM4" "a8:11:7f:32:01:45" "Bluetooth Headphones" 4
                       "CRITICAL" (-50) 0%float "Connected"]
  /\ snd r = ["  > AI ACTION: Boosting Priority for 'Sony XM4' to CRITICAL (Audio Detection)"].
Proof. vm_compute. repeat split. Qed.

(** C3, amended.  Dashboard: an evaluation changes the priority exactly
    when the type is "Headphones", the drawn traffic exceeds 5.0 and the
    priority is not yet "CRITICAL"; the entry then gets priority "CRITICAL"
    and the elevation message is in the log; otherwise the entry is
    untouched.  Driver: a pass changes an entry's priority exactly when the
    type is "Bluetooth Headphones" and the priority is not yet "CRITICAL",
    whatever the data rate; the priority is then "CRITICAL" and the line is
    printed. *)
Theorem C3_priority_elevation_rule :
  (forall (dev : Dashboard.device) (s : Z) (tr : float) (lg : list string),
      let r := Dashboard.ai_engine dev s tr lg in
      (Dashboard.priority (fst r) <> Dashboard.priority dev
       <-> (Dashboard.type dev = "Headphones"
            /\ PrimFloat.ltb 5%float tr = true
            /\ Dashboard.priority dev <> "CRITICAL"))
      /\ (Dashboard.priority (fst r) <> Dashboard.priority dev ->
          fst r = Dashboard.set_priority "CRITICAL" dev
          /\ Dashboard.priority (fst r) = "CRITICAL"
          /\ In Dashboard.elevate_msg (snd r))
      /\ (Dashboard.priority (fst r) = Dashboard.priority dev -> fst r = dev))
  /\
  (forall (dev : Driver.device) (st : Driver.stats) (t : Rand.tape) (i : nat),
      let r := fst (Driver.optimize_device (dev, st, []) t i) in
      (Driver.priority (fst (fst r)) <> Driver.priority dev
       <-> (Driver.type dev = "Bluetooth Headphones"
            /\ Driver.priority dev <> "CRITICAL"))
      /\ (Driver.priority (fst (fst r)) <> Driver.priority dev ->
          fst (fst r) = Driver.set_priority "CRITICAL" dev
          /\ Driver.priority (fst (fst r)) = "CRITICAL"
          /\ In (Driver.boost_priority_msg dev) (snd r))
      /\ (Driver.priority (fst (fst r)) = Driver.priority dev -> fst (fst r) = dev)).
Proof.
  split.
  - intros dev s tr lg r. subst r.
    destruct (elevation_dec dev tr) as [[Ha [Hb Hc]]|H].
    + rewrite ai_engine_elevates by assumption. cbn [fst snd].
      cbn [Dashboard.set_priority Dashboard.priority].
      split; [|split].
      * split; [auto | intros _ E; now apply Hc].
      * intros _. repeat split. apply log_once_In.
      * intros E. exfalso. now apply Hc.
    + rewrite ai_engine_keeps by assumption. cbn [fst snd].
      split; [|split].
      * split; [intros N; now elim N | intros C; now elim H].
      * intros N. now elim N.
      * reflexivity.
  - intros dev st t i r. subst r.
    destruct (optimize_device_shape dev st [] t i) as (pw & _ & ->).
    cbn [fst snd]. rewrite elevated_changes_iff, audio_detected_iff.
    split; [reflexivity|]. unfold Driver.elevated.
    destruct (Driver.audio_detected dev) eqn:E; split.
    + intros _. repeat split. simpl. now left.
    + cbn [Driver.set_priority Driver.priority]. intros C.
      apply audio_detected_iff in E as [_ E]. exfalso. now apply E.
    + intros N. apply audio_detected_iff in N. congruence.
    + reflexivity.
Qed.

(** The amended C3 on the Sony XM4 of each script. *)
Lemma C3_priority_elevation_witness :
  (let xm4 := Dashboard.mkDevice "Sony XM4" "Headphones" "A8:11:7F:32:01:45" "HIGH" 0 in
   let r := Dashboard.ai_engine xm4 (-50) 6%float [] in
   fst r = Dashboard.set_priority "CRITICAL" xm4
   /\ Dashboard.priority (fst r) = "CRITICAL"
   /\ In Dashboard.elevate_msg (snd r))
  /\
  (let xm4 := Driver.mkDevice "Sony XM4" "a8:11:7f:32:01:45" "Bluetooth Headphones" 4
                              "MEDIUM" (-50) 0%float "Connected" in
   let r := fst (Driver.optimize_device (xm4, Driver.mkStats 0 0 0, [])
                                         (Rand.replay []) 0%nat) in
   fst (fst r) = Driver.set_priority "CRITICAL" xm4
   /\ Driver.priority (fst (fst r)) = "CRITICAL"
   /\ In (Driver.boost_priority_msg xm4) (snd r)).
Proof.
  split.
  - apply (proj1 (proj2 (proj1 C3_priority_elevation_rule
             (Dashboard.mkDevice "Sony XM4" "Headphones" "A8:11:7F:32:01:45" "HIGH" 0)
             (-50) 6%float []))).
    simpl. discriminate.
  - apply (proj1 (proj2 (proj2 C3_priority_elevation_rule
             (Driver.mkDevice "Sony XM4" "a8:11:7f:32:01:45" "Bluetooth Headphones" 4
                              "MEDIUM" (-50) 0%float "Connected")
             (Driver.mkStats 0 0 0) (Rand.replay []) 0%nat))).
    simpl. discriminate.
Defined.

(** ** Randomness inside the evaluation *)

(** C4, as stated, fails on the driver script: the compressor-start rule
    calls [random.random()] inside the pass, so two runs over the same air
    conditioner print different actions when the draws differ (0.0 against
    a value just below 1.0). *)
Lemma C4_same_state_different_actions :
  let ac := Driver.mkDevice "Living Room AC" "b4:3a:92:7c:f5:12" "Air Conditioner" 1
                            "MEDIUM" (-50) 0%float "Connected" in
  let d := Driver.mkDriver [ac] (Driver.mkStats 0 0 0) in
  Rand.run (Driver.run_ai_optimization d) (Rand.replay [0])
    = (d, [])
  /\ Rand.run (Driver.run_ai_optimization d) (Rand.replay [9007199254740991])
    = (Driver.mkDriver [ac] (Driver.mkStats 0 0 1), [Driver.power_msg]).
Proof. vm_compute. split; reflexivity. Qed.

(** C4, amended.  The pass is a function of the driver state and of the
    values the generator returns: (1) two tapes that agree from the cursor
    on give the same result; (2) with no "Air Conditioner" entry the result
    is the same for all tapes; (3) the entries after the pass never depend
    on the tape.  In the dashboard the two draws of a device are the only
    cells the evaluation of that device reads. *)
Theorem C4_evaluation_depends_on_draws_only :
  (forall (d : Driver.driver) (t1 t2 : Rand.tape) (i : nat),
      (forall k, (i <= k)%nat -> t1 k = t2 k) ->
      Driver.run_ai_optimization d t1 i = Driver.run_ai_optimization d t2 i)
  /\
  (forall (d : Driver.driver) (t1 t2 : Rand.tape) (i1 i2 : nat),
      (forall e, In e (Driver.active_connections d) ->
                 Driver.type e <> "Air Conditioner") ->
      fst (Driver.run_ai_optimization d t1 i1)
      = fst (Driver.run_ai_optimization d t2 i2))
  /\
  (forall (d : Driver.driver) (t1 t2 : Rand.tape) (i1 i2 : nat),
      Driver.active_connections (fst (fst (Driver.run_ai_optimization d t1 i1)))
      = Driver.active_connections (fst (fst (Driver.run_ai_optimization d t2 i2))))
  /\
  (forall (dev : Dashboard.device) (lg : list string) (t1 t2 : Rand.tape) (i : nat),
      t1 i = t2 i -> t1 (S i) = t2 (S i) ->
      Dashboard.device_step dev lg t1 i = Dashboard.device_step dev lg t2 i).
Proof.
  split; [|split; [|split]].
  - intros d t1 t2 i H. unfold Driver.run_ai_optimization, Rand.bind.
    rewrite (optimize_loop_ext _ _ _ t1 t2 i H).
    now destruct (Driver.optimize_loop _ _ _ t2 i) as [[[c s] o] j].
  - intros d t1 t2 i1 i2 H. unfold Driver.run_ai_optimization, Rand.bind.
    pose proof (optimize_loop_no_ac (Driver.active_connections d)
                  (Driver.driver_stats d) [] t1 t2 i1 i2 H) as E.
    destruct (Driver.optimize_loop _ _ _ t1 i1) as [[[c1 s1] o1] j1].
    destruct (Driver.optimize_loop _ _ _ t2 i2) as [[[c2 s2] o2] j2].
    simpl in E. injection E as -> -> ->. reflexivity.
  - intros d t1 t2 i1 i2.
    destruct (run_ai_optimization_shape d t1 i1) as (l1 & -> & _).
    destruct (run_ai_optimization_shape d t2 i2) as (l2 & -> & _).
    reflexivity.
  - intros dev lg t1 t2 i H0 H1.
    unfold Dashboard.device_step, Rand.bind, Rand.randint. rewrite H0.
    destruct (negb (Dashboard.priority dev =? "LOW")%string);
      unfold Rand.uniform, Rand.bind, Rand.random, Rand.ret; now rewrite H1.
Qed.

(** The amended C4 at concrete inputs: an air conditioner read from two
    tapes that differ only before the cursor, a fridge read from two
    unrelated tapes, and one dashboard step. *)
Lemma C4_evaluation_witness :
  (let ac := Driver.mkDevice "Living Room AC" "b4:3a:92:7c:f5:12" "Air Conditioner" 1
                             "MEDIUM" (-50) 0%float "Connected" in
   let d := Driver.mkDriver [ac] (Driver.mkStats 0 0 0) in
   Driver.run_ai_optimization d (Rand.replay [1; 9007199254740991]) 1%nat
   = Driver.run_ai_optimization d (Rand.replay [2; 9007199254740991]) 1%nat)
  /\
  (let fridge := Driver.mkDevice "Kitchen Fridge" "c1:44:8e:20:bc:99" "Refrigerator" 2
                                 "MEDIUM" (-90) 0%float "Connected" in
   let d := Driver.mkDriver [fridge] (Driver.mkStats 0 0 0) in
   fst (Driver.run_ai_optimization d (Rand.replay [0]) 0%nat)
   = fst (Driver.run_ai_optimization d (Rand.replay [9007199254740991]) 3%nat))
  /\
  (let xm4 := Dashboard.mkDevice "Sony XM4" "Headphones" "A8:11:7F:32:01:45" "HIGH" 0 in
   Dashboard.device_step xm4 [] (Rand.replay [5; 7; 1]) 0%nat
   = Dashboard.device_step xm4 [] (Rand.replay [5; 7; 2]) 0%nat).
Proof.
  split; [|split].
  - apply (proj1 C4_evaluation_depends_on_draws_only
             (Driver.mkDriver
                [Driver.mkDevice "Living Room AC" "b4:3a:92:7c:f5:12" "Air Conditioner" 1
                                 "MEDIUM" (-50) 0%float "Connected"]
                (Driver.mkStats 0 0 0))
             (Rand.replay [1; 9007199254740991])
             (Rand.replay [2; 9007199254740991]) 1%nat).
    intros k Hk. destruct k as [|k]; [lia | reflexivity].
  - apply (proj1 (proj2 C4_evaluation_depends_on_draws_only)
             (Driver.mkDriver
                [Driver.mkDevice "Kitchen Fridge" "c1:44:8e:20:bc:99" "Refrigerator" 2
                                 "MEDIUM" (-90) 0%float "Connected"]
                (Driver.mkStats 0 0 0))
             (Rand.replay [0]) (Rand.replay [9007199254740991]) 0%nat 3%nat).
    intros e [<-|[]]. simpl. discriminate.
  - apply (proj2 (proj2 (proj2 C4_evaluation_depends_on_draws_only))
             (Dashboard.mkDevice "Sony XM4" "Headphones" "A8:11:7F:32:01:45" "HIGH" 0)
             [] (Rand.replay [5; 7; 1]) (Rand.replay [5; 7; 2]) 0%nat).
    + reflexivity.
    + reflexivity.
Defined.

(** ** Priorities over time *)

Section Priorities.

Lemma Forall2_nth_error {A B : Type} (R : A -> B -> Prop)
      (l : list A) (l' : list B) (k : nat) (a : A) (b : B) :
  Forall2 R l l' -> nth_error l k = Some a -> nth_error l' k = Some b -> R a b.
Proof.
  intros F. revert k. induction F as [|x y l l' Hxy F IH]; intros k Ha Hb.
  - destruct k; discriminate.
  - destruct k as [|k]; simpl in Ha, Hb.
    + injection Ha as <-. injection Hb as <-. assumption.
    + eauto.
Qed.

Lemma Forall2_compose {A : Type} (R1 R2 R3 : A -> A -> Prop) (l1 l2 l3 : list A) :
  (forall a b c, R1 a b -> R2 b c -> R3 a c) ->
  Forall2 R1 l1 l2 -> Forall2 R2 l2 l3 -> Forall2 R3 l1 l3.
Proof.
  intros T F. revert l3. induction F as [|a b l l' Hab F IH]; intros l3 F3.
  - inversion F3. constructor.
  - inversion F3; subst. constructor; eauto.
Qed.

Lemma raised_or_same_refl (p : string) : Obs.raised_or_same p p.
Proof. now left. Qed.

Lemma raised_or_same_trans (p q r : string) :
  Obs.raised_or_same p q -> Obs.raised_or_same q r -> Obs.raised_or_same p r.
Proof.
  unfold Obs.raised_or_same. intros [-> | ->] [-> | ->]; auto.
Qed.

Lemma raised_or_same_rank (p q : string) :
  Obs.raised_or_same p q -> (Obs.rank q <= Obs.rank p)%nat.
Proof.
  intros [-> | ->]; [lia|]. unfold Obs.rank. simpl. lia.
Qed.

Lemma raised_or_same_critical (q : string) :
  Obs.raised_or_same "CRITICAL" q -> q = "CRITICAL".
Proof. now intros [-> | ->]. Qed.

Lemma dash_moved_priority (lg : list string) (d d' : Dashboard.device) :
  Obs.dash_moved lg d d' ->
  Obs.raised_or_same (Dashboard.priority d) (Dashboard.priority d').
Proof.
  intros [->|(_ & _ & -> & _)]; [now left | now right].
Qed.

Lemma dash_moved_changed (lg : list string) (d d' : Dashboard.device) :
  Obs.dash_moved lg d d' -> Dashboard.priority d' <> Dashboard.priority d ->
  Dashboard.type d = "Headphones"
  /\ d' = Dashboard.set_priority "CRITICAL" d
  /\ In Dashboard.elevate_msg lg.
Proof.
  intros [->|(H1 & _ & H2 & H3)] N; [now elim N | auto].
Qed.

(** Only one of [DEVICES] has type "Headphones". *)
Lemma DEVICES_headphones (k : nat) (d : Dashboard.device) :
  nth_error Dashboard.DEVICES k = Some d -> Dashboard.type d = "Headphones" ->
  Dashboard.name d = "Sony XM4".
Proof.
  do 5 (destruct k as [|k];
        [simpl; intros E; injection E as <-; simpl; try discriminate; auto|]).
  destruct k; discriminate.
Qed.

(** Entries of the driver: what each operation does to priorities. *)
Lemma traffic_keeps_priority (d : Driver.driver) (t : Rand.tape) (i : nat) :
  Forall2 (fun e e' => Driver.priority e' = Driver.priority e)
          (Driver.active_connections d)
          (Driver.active_connections (fst (Driver.simulate_traffic d t i))).
Proof.
  pose proof (simulate_traffic_shape d t i) as F.
  induction F as [|e e' l l' (p & dl & _ & _ & ->) F IH]; constructor; auto.
Qed.

Lemma pass_moves_priority (d : Driver.driver) (t : Rand.tape) (i : nat) :
  Forall2 (fun e e' => e' = Driver.elevated e)
          (Driver.active_connections d)
          (Driver.active_connections (fst (fst (Driver.run_ai_optimization d t i)))).
Proof.
  destruct (run_ai_optimization_shape d t i) as (lines & -> & _). cbn [fst].
  cbn [Driver.active_connections].
  induction (Driver.active_connections d); constructor; auto.
Qed.

Lemma main_cycle_priority (k : Z) (s : Driver.driver * list string)
      (t : Rand.tape) (i : nat) :
  Forall2 (fun e e' => Obs.raised_or_same (Driver.priority e) (Driver.priority e'))
          (Driver.active_connections (fst s))
          (Driver.active_connections (fst (fst (Driver.main_cycle k s t i)))).
Proof.
  destruct s as [d out]. unfold Driver.main_cycle, Rand.bind. cbn [fst].
  pose proof (traffic_keeps_priority d t i) as F1.
  destruct (Driver.simulate_traffic d t i) as [d1 j]. cbn [fst] in F1.
  destruct (k mod 2 =? 0).
  - unfold Rand.bind. pose proof (pass_moves_priority d1 t j) as F2.
    destruct (Driver.run_ai_optimization d1 t j) as [[d2 lines] m].
    cbn [fst] in *. unfold Rand.ret. cbn [fst].
    eapply Forall2_compose; [|exact F1|exact F2].
    intros a b c Hab ->. cbv beta. rewrite <- Hab. apply elevated_priority.
  - unfold Rand.ret. cbn [fst].
    eapply Forall2_impl; [|exact F1]. intros a b ->. now left.
Qed.

Lemma for_range_main_cycle_priority (n : nat) (k : Z)
      (s : Driver.driver * list string) (t : Rand.tape) (i : nat) :
  Forall2 (fun e e' => Obs.raised_or_same (Driver.priority e) (Driver.priority e'))
          (Driver.active_connections (fst s))
          (Driver.active_connections
             (fst (fst (Driver.for_range n k Driver.main_cycle s t i)))).
Proof.
  revert k s i. induction n as [|n IH]; intros k s i.
  - simpl. induction (Driver.active_connections (fst s)); constructor;
      [apply raised_or_same_refl | assumption].
  - cbn [Driver.for_range]. unfold Rand.bind.
    pose proof (main_cycle_priority k s t i) as F1.
    destruct (Driver.main_cycle k s t i) as [s' j]. cbn [fst] in F1.
    eapply Forall2_compose; [|exact F1|apply IH].
    intros a b c. apply raised_or_same_trans.
Qed.

End Priorities.

(** ** Every priority change leaves a record *)

(** C5.  Dashboard: over any number of cycles from any state, an entry
    whose priority differs at the end was raised to "CRITICAL" and the
    elevation message is in the log; in [simulate] that entry is the Sony
    XM4, the device the message names.  Driver: an entry whose priority
    differs after a pass was raised to "CRITICAL", its "Boosting Priority"
    line was printed and the optimisation counter grew; [simulate_traffic]
    and [connect_mock_device] change no priority of an existing entry. *)
Theorem C5_priority_changes_are_recorded :
  (forall (n : nat) (s : Dashboard.state) (t : Rand.tape) (i k : nat)
          (d d' : Dashboard.device),
      nth_error (Dashboard.devices s) k = Some d ->
      nth_error (Dashboard.devices (fst (Dashboard.cycles n s t i))) k = Some d' ->
      Dashboard.priority d' <> Dashboard.priority d ->
      d' = Dashboard.set_priority "CRITICAL" d
      /\ In Dashboard.elevate_msg (Dashboard.logs (fst (Dashboard.cycles n s t i))))
  /\
  (forall (t : Rand.tape) (k : nat) (d d' : Dashboard.device),
      nth_error Dashboard.DEVICES k = Some d ->
      nth_error (Dashboard.devices (Rand.run Dashboard.simulate t)) k = Some d' ->
      Dashboard.priority d' <> Dashboard.priority d ->
      Dashboard.name d = "Sony XM4"
      /\ In Dashboard.elevate_msg (Dashboard.logs (Rand.run Dashboard.simulate t)))
  /\
  (forall (d : Driver.driver) (t : Rand.tape) (i k : nat) (e e' : Driver.device),
      let r := fst (Driver.run_ai_optimization d t i) in
      nth_error (Driver.active_connections d) k = Some e ->
      nth_error (Driver.active_connections (fst r)) k = Some e' ->
      Driver.priority e' <> Driver.priority e ->
      e' = Driver.set_priority "CRITICAL" e
      /\ In (Driver.boost_priority_msg e) (snd r)
      /\ Driver.ai_optimizations (Driver.driver_stats (fst r))
         > Driver.ai_optimizations (Driver.driver_stats d))
  /\
  (forall (d : Driver.driver) (t : Rand.tape) (i k : nat) (e e' : Driver.device),
      nth_error (Driver.active_connections d) k = Some e ->
      nth_error (Driver.active_connections (fst (Driver.simulate_traffic d t i))) k
        = Some e' ->
      Driver.priority e' = Driver.priority e)
  /\
  (forall (nm : string) (ty : Z) (d : Driver.driver) (t : Rand.tape) (i k : nat)
          (e : Driver.device),
      nth_error (Driver.active_connections d) k = Some e ->
      nth_error (Driver.active_connections
                   (fst (Driver.connect_mock_device nm ty d t i))) k = Some e).
Proof.
  split; [|split; [|split; [|split]]].
  - intros n s t i k d d' Hd Hd' N.
    destruct (cycles_shape n s t i) as [_ F].
    pose proof (Forall2_nth_error _ _ _ _ _ _ F Hd Hd') as M.
    apply dash_moved_changed in M; tauto.
  - intros t k d d' Hd Hd' N. unfold Rand.run, Dashboard.simulate in *.
    destruct (cycles_shape Dashboard.NUM_CYCLES
                (Dashboard.mkState Dashboard.DEVICES [] []) t 0%nat) as [_ F].
    pose proof (Forall2_nth_error _ _ _ _ _ _ F Hd Hd') as M.
    apply dash_moved_changed in M; [|assumption].
    destruct M as (Ht & _ & Hin). split; [|assumption].
    eapply DEVICES_headphones; eauto.
  - intros d t i k e e' r He He' N. subst r.
    pose proof (pass_moves_priority d t i) as F.
    pose proof (Forall2_nth_error _ _ _ _ _ _ F He He') as ->.
    apply elevated_changes_iff in N.
    destruct (run_ai_optimization_shape d t i) as (lines & -> & P & _).
    cbn [fst snd Driver.driver_stats Driver.ai_optimizations].
    assert (Hin : In (Driver.boost_priority_msg e) lines).
    { apply P; [|assumption]. eapply nth_error_In; eauto. }
    split; [|split].
    + unfold Driver.elevated. now rewrite N.
    + assumption.
    + destruct lines; [contradiction|]. cbn [List.length]. lia.
  - intros d t i k e e' He He'.
    pose proof (traffic_keeps_priority d t i) as F.
    exact (Forall2_nth_error _ _ _ _ _ _ F He He').
  - intros nm ty d t i k e He.
    destruct (connect_shape nm ty d t i) as (bytes & sig & _ & _ & _ & ->).
    cbn [Driver.active_connections].
    rewrite nth_error_app1; [assumption|].
    apply nth_error_Some. congruence.
Qed.

(** C5 at concrete runs: one dashboard cycle in which the Sony XM4 draws a
    traffic above 5.0, the whole of [simulate] on the same tape, and one
    driver pass, one traffic update and one connection over fresh
    headphones. *)
Lemma C5_priority_record_witness :
  (let t := Rand.replay [0; 0; 0; 0; 40; 4000000000000000] in
   let s := Dashboard.mkState Dashboard.DEVICES [] [] in
   let xm4 := Dashboard.mkDevice "Sony XM4" "Headphones" "A8:11:7F:32:01:45" "HIGH" 0 in
   Dashboard.set_priority "CRITICAL" xm4 = Dashboard.set_priority "CRITICAL" xm4
   /\ In Dashboard.elevate_msg (Dashboard.logs (fst (Dashboard.cycles 1 s t 0%nat))))
  /\
  (let t := Rand.replay [0; 0; 0; 0; 40; 4000000000000000] in
   let xm4 := Dashboard.mkDevice "Sony XM4" "Headphones" "A8:11:7F:32:01:45" "HIGH" 0 in
   Dashboard.name xm4 = "Sony XM4"
   /\ In Dashboard.elevate_msg (Dashboard.logs (Rand.run Dashboard.simulate t)))
  /\
  (let xm4 := Driver.mkDevice "Sony XM4" "a8:11:7f:32:01:45" "Bluetooth Headphones" 4
                              "MEDIUM" (-50) 0%float "Connected" in
   let d := Driver.mkDriver [xm4] (Driver.mkStats 0 0 0) in
   let r := fst (Driver.run_ai_optimization d (Rand.replay []) 0%nat) in
   Driver.set_priority "CRITICAL" xm4 = Driver.set_priority "CRITICAL" xm4
   /\ In (Driver.boost_priority_msg xm4) (snd r)
   /\ Driver.ai_optimizations (Driver.driver_stats (fst r))
      > Driver.ai_optimizations (Driver.driver_stats d))
  /\
  (let xm4 := Driver.mkDevice "Sony XM4" "a8:11:7f:32:01:45" "Bluetooth Headphones" 4
                              "MEDIUM" (-50) 0%float "Connected" in
   Driver.priority (Driver.traffic_step 100 (-2) xm4) = Driver.priority xm4)
  /\
  (let xm4 := Driver.mkDevice "Sony XM4" "a8:11:7f:32:01:45" "Bluetooth Headphones" 4
                              "MEDIUM" (-50) 0%float "Connected" in
   let d := Driver.mkDriver [xm4] (Driver.mkStats 0 0 0) in
   nth_error (Driver.active_connections
                (fst (Driver.connect_mock_device "Samsung S23" 5 d (Rand.replay []) 0%nat)))
             0%nat = Some xm4).
Proof.
  split; [|split; [|split; [|split]]].
  - apply (proj1 C5_priority_changes_are_recorded 1%nat
             (Dashboard.mkState Dashboard.DEVICES [] [])
             (Rand.replay [0; 0; 0; 0; 40; 4000000000000000]) 0%nat 2%nat
             (Dashboard.mkDevice "Sony XM4" "Headphones" "A8:11:7F:32:01:45" "HIGH" 0)
             (Dashboard.mkDevice "Sony XM4" "Headphones" "A8:11:7F:32:01:45" "CRITICAL" 0)).
    + reflexivity.
    + vm_compute. reflexivity.
    + simpl. discriminate.
  - apply (proj1 (proj2 C5_priority_changes_are_recorded)
             (Rand.replay [0; 0; 0; 0; 40; 4000000000000000]) 2%nat
             (Dashboard.mkDevice "Sony XM4" "Headphones" "A8:11:7F:32:01:45" "HIGH" 0)
             (Dashboard.mkDevice "Sony XM4" "Headphones" "A8:11:7F:32:01:45" "CRITICAL" 0)).
    + reflexivity.
    + vm_compute. reflexivity.
    + simpl. discriminate.
  - apply (proj1 (proj2 (proj2 C5_priority_changes_are_recorded))
             (Driver.mkDriver
                [Driver.mkDevice "Sony XM4" "a8:11:7f:32:01:45" "Bluetooth Headphones" 4
                                 "MEDIUM" (-50) 0%float "Connected"]
                (Driver.mkStats 0 0 0))
             (Rand.replay []) 0%nat 0%nat
             (Driver.mkDevice "Sony XM4" "a8:11:7f:32:01:45" "Bluetooth Headphones" 4
                              "MEDIUM" (-50) 0%float "Connected")
             (Driver.mkDevice "Sony XM4" "a8:11:7f:32:01:45" "Bluetooth Headphones" 4
                              "CRITICAL" (-50) 0%float "Connected")).
    + reflexivity.
    + vm_compute. reflexivity.
    + simpl. discriminate.
  - apply (proj1 (proj2 (proj2 (proj2 C5_priority_changes_are_recorded)))
             (Driver.mkDriver
                [Driver.mkDevice "Sony XM4" "a8:11:7f:32:01:45" "Bluetooth Headphones" 4
                                 "MEDIUM" (-50) 0%float "Connected"]
                (Driver.mkStats 0 0 0))
             (Rand.replay []) 0%nat 0%nat).
    + reflexivity.
    + vm_compute. reflexivity.
  - apply (proj2 (proj2 (proj2 (proj2 C5_priority_changes_are_recorded)))).
    reflexivity.
Defined.

(** ** Priorities are never lowered *)

(** C10.  In both scripts the only assignment to a priority writes
    "CRITICAL".  Over any number of dashboard cycles, and over any number of
    cycles of the driver's main loop, the priority of every entry is the one
    it had or "CRITICAL": its rank in PRIORITIES never grows, and an entry
    that is "CRITICAL" stays "CRITICAL".  Connecting a device leaves the
    existing entries as they are. *)
Theorem C10_priority_never_lowered :
  (forall (n : nat) (s : Dashboard.state) (t : Rand.tape) (i k : nat)
          (d d' : Dashboard.device),
      nth_error (Dashboard.devices s) k = Some d ->
      nth_error (Dashboard.devices (fst (Dashboard.cycles n s t i))) k = Some d' ->
      (Obs.rank (Dashboard.priority d') <= Obs.rank (Dashboard.priority d))%nat
      /\ (Dashboard.priority d = "CRITICAL" -> Dashboard.priority d' = "CRITICAL"))
  /\
  (forall (n : nat) (j : Z) (s : Driver.driver * list string) (t : Rand.tape)
          (i k : nat) (e e' : Driver.device),
      nth_error (Driver.active_connections (fst s)) k = Some e ->
      nth_error (Driver.active_connections
                   (fst (fst (Driver.for_range n j Driver.main_cycle s t i)))) k
        = Some e' ->
      (Obs.rank (Driver.priority e') <= Obs.rank (Driver.priority e))%nat
      /\ (Driver.priority e = "CRITICAL" -> Driver.priority e' = "CRITICAL"))
  /\
  (forall (nm : string) (ty : Z) (d : Driver.driver) (t : Rand.tape) (i k : nat)
          (e : Driver.device),
      nth_error (Driver.active_connections d) k = Some e ->
      nth_error (Driver.active_connections
                   (fst (Driver.connect_mock_device nm ty d t i))) k = Some e).
Proof.
  split; [|split].
  - intros n s t i k d d' Hd Hd'.
    destruct (cycles_shape n s t i) as [_ F].
    pose proof (Forall2_nth_error _ _ _ _ _ _ F Hd Hd') as M.
    apply dash_moved_priority in M. split.
    + now apply raised_or_same_rank.
    + intros C. rewrite C in M. now apply raised_or_same_critical.
  - intros n j s t i k e e' He He'.
    pose proof (for_range_main_cycle_priority n j s t i) as F.
    pose proof (Forall2_nth_error _ _ _ _ _ _ F He He') as M.
    cbv beta in M. split.
    + now apply raised_or_same_rank.
    + intros C. rewrite C in M. now apply raised_or_same_critical.
  - intros nm ty d t i k e He.
    destruct (connect_shape nm ty d t i) as (bytes & sig & _ & _ & _ & ->).
    cbn [Driver.active_connections].
    rewrite nth_error_app1; [assumption|].
    apply nth_error_Some. congruence.
Qed.

(** C10 at concrete runs: the Sony XM4 over the twenty cycles of the
    dashboard once it has drawn a traffic above 5.0, and headphones over the
    five cycles of the driver's main loop. *)
Lemma C10_priority_witness :
  (let xm4 := Dashboard.mkDevice "Sony XM4" "Headphones" "A8:11:7F:32:01:45" "HIGH" 0 in
   (Obs.rank "CRITICAL" <= Obs.rank (Dashboard.priority xm4))%nat
   /\ (Dashboard.priority xm4 = "CRITICAL" -> "CRITICAL" = "CRITICAL"))
  /\
  (let xm4 := Driver.mkDevice "Sony XM4" "a8:11:7f:32:01:45" "Bluetooth Headphones" 4
                              "CRITICAL" (-50) 0%float "Connected" in
   (Obs.rank "CRITICAL" <= Obs.rank (Driver.priority xm4))%nat
   /\ (Driver.priority xm4 = "CRITICAL" -> "CRITICAL" = "CRITICAL")).
Proof.
  split.
  - apply (proj1 C10_priority_never_lowered 20%nat
             (Dashboard.mkState Dashboard.DEVICES [] [])
             (Rand.replay [0; 0; 0; 0; 40; 4000000000000000]) 0%nat 2%nat
             (Dashboard.mkDevice "Sony XM4" "Headphones" "A8:11:7F:32:01:45" "HIGH" 0)
             (Dashboard.mkDevice "Sony XM4" "Headphones" "A8:11:7F:32:01:45" "CRITICAL" 0)).
    + reflexivity.
    + vm_compute. reflexivity.
  - apply (proj1 (proj2 C10_priority_never_lowered) 5%nat 0
             (Driver.mkDriver
                [Driver.mkDevice "Sony XM4" "a8:11:7f:32:01:45" "Bluetooth Headphones" 4
                                 "CRITICAL" (-50) 0%float "Connected"]
                (Driver.mkStats 0 0 0), [])
             (Rand.replay []) 0%nat 0%nat
             (Driver.mkDevice "Sony XM4" "a8:11:7f:32:01:45" "Bluetooth Headphones" 4
                              "CRITICAL" (-50) 0%float "Connected")
             (Driver.mkDevice "Sony XM4" "a8:11:7f:32:01:45" "Bluetooth Headphones" 4
                              "CRITICAL" (-60) 200%float "Connected")).
    + reflexivity.
    + vm_compute. reflexivity.
Defined.

(** ** Connections *)

(** C7, as stated, fails: [connect_mock_device] compares the new address
    with nothing.  When the generator returns the same six bytes for two
    connections, both are accepted and two live entries share an address. *)
Lemma C7_duplicate_address_accepted :
  let t := Rand.replay [] in
  let d := Rand.run (Rand.bind (Driver.connect_mock_device "Living Room AC" 1 Driver.init)
                               (Driver.connect_mock_device "Kitchen Fridge" 2)) t in
  map Driver.name (Driver.active_connections d) = ["Living Room AC"; "Kitchen Fridge"]
  /\ map Driver.address (Driver.active_connections d)
     = ["00:00:00:00:00:00"; "00:00:00:00:00:00"].
Proof. vm_compute. split; reflexivity. Qed.

(** C7, amended.  [connect_mock_device] never fails and always appends
    exactly one entry, whose address is formatted from the next six draws
    without looking at the entries already present; the statistics and the
    existing entries are untouched.  Hence a second connection whose six
    draws repeat those of the first yields two entries with one address. *)
Theorem C7_connect_always_appends :
  (forall (nm : string) (ty : Z) (d : Driver.driver) (t : Rand.tape) (i : nat),
      fst (Driver.connect_mock_device nm ty d t i) =
        Driver.mkDriver
          (Driver.active_connections d ++
             [Driver.mkDevice nm
                (Py.join ":" (map (fun c => Py.hex02 (c mod 256))
                                  [t i; t (1 + i)%nat; t (2 + i)%nat;
                                   t (3 + i)%nat; t (4 + i)%nat; t (5 + i)%nat]))
                (Driver.DEVICE_TYPES ty) ty "MEDIUM"
                (-90 + t (6 + i)%nat mod 61) 0%float "Connected"])
          (Driver.driver_stats d))
  /\
  (forall (nm1 nm2 : string) (ty1 ty2 : Z) (d : Driver.driver)
          (t1 t2 : Rand.tape) (i1 i2 : nat),
      (forall k, (k < 6)%nat -> t1 (k + i1)%nat mod 256 = t2 (k + i2)%nat mod 256) ->
      let d1 := fst (Driver.connect_mock_device nm1 ty1 d t1 i1) in
      let d2 := fst (Driver.connect_mock_device nm2 ty2 d1 t2 i2) in
      exists e1 e2,
        Driver.active_connections d2 = Driver.active_connections d ++ [e1; e2]
        /\ Driver.name e1 = nm1 /\ Driver.name e2 = nm2
        /\ Driver.address e1 = Driver.address e2).
Proof.
  assert (A : forall nm ty d t i,
      fst (Driver.connect_mock_device nm ty d t i) =
        Driver.mkDriver
          (Driver.active_connections d ++
             [Driver.mkDevice nm
                (Py.join ":" (map (fun c => Py.hex02 (c mod 256))
                                  [t i; t (1 + i)%nat; t (2 + i)%nat;
                                   t (3 + i)%nat; t (4 + i)%nat; t (5 + i)%nat]))
                (Driver.DEVICE_TYPES ty) ty "MEDIUM"
                (-90 + t (6 + i)%nat mod 61) 0%float "Connected"])
          (Driver.driver_stats d)) by reflexivity.
  split; [exact A|].
  intros nm1 nm2 ty1 ty2 d t1 t2 i1 i2 H d1 d2. subst d2 d1.
  rewrite (A nm2 ty2), (A nm1 ty1). cbn [Driver.active_connections].
  eexists _, _. split; [now rewrite <- app_assoc|].
  cbn [Driver.name Driver.address map]. repeat split.
  change (t1 i1) with (t1 (0 + i1)%nat). change (t2 i2) with (t2 (0 + i2)%nat).
  rewrite (H 0%nat), (H 1%nat), (H 2%nat), (H 3%nat), (H 4%nat), (H 5%nat) by lia.
  reflexivity.
Qed.

(** The amended C7 on two connections that read the same cells of a tape. *)
Lemma C7_connect_witness :
  let t := Rand.replay [180; 58; 146; 124; 245; 18; 7] in
  let d1 := fst (Driver.connect_mock_device "Living Room AC" 1 Driver.init t 0%nat) in
  let d2 := fst (Driver.connect_mock_device "Kitchen Fridge" 2 d1 t 0%nat) in
  exists e1 e2,
    Driver.active_connections d2 = Driver.active_connections Driver.init ++ [e1; e2]
    /\ Driver.name e1 = "Living Room AC" /\ Driver.name e2 = "Kitchen Fridge"
    /\ Driver.address e1 = Driver.address e2.
Proof.
  apply (proj2 C7_connect_always_appends "Living Room AC" "Kitchen Fridge" 1 2
           Driver.init (Rand.replay [180; 58; 146; 124; 245; 18; 7])
           (Rand.replay [180; 58; 146; 124; 245; 18; 7]) 0%nat 0%nat).
  intros k Hk. reflexivity.
Defined.

(** ** Signal levels are not clamped *)

(** C8, as stated, fails: [simulate_traffic] adds the drawn step to the
    stored signal and clamps nothing.  A device connected at -90 dBm that
    draws -2 six times in a row is stored at -102 dBm. *)
Lemma C8_signal_below_minus_100 :
  let d := Rand.run (Rand.bind (Driver.connect_mock_device "Sony XM4" 4 Driver.init)
                               (Driver.for_range 6 0 (fun _ => Driver.simulate_traffic)))
                    (Rand.replay []) in
  map Driver.signal (Driver.active_connections d) = [-102].
Proof. vm_compute. reflexivity. Qed.

(** C8, amended.  Each update moves every stored signal by the step drawn
    for it, between -2 and 2, with no clamping; a device is connected with a
    signal between -90 and -30; hence after the five cycles of [main] every
    stored signal lies between -100 and -20, whatever the generator
    returns.  Nothing keeps a longer run inside [-100, 0]. *)
Theorem C8_signal_drifts_by_two_per_update :
  (forall (nm : string) (ty : Z) (d : Driver.driver) (t : Rand.tape) (i : nat),
      exists e,
        Driver.active_connections (fst (Driver.connect_mock_device nm ty d t i))
        = Driver.active_connections d ++ [e]
        /\ -90 <= Driver.signal e <= -30)
  /\
  (forall (d : Driver.driver) (t : Rand.tape) (i : nat),
      Forall2 (fun e e' => exists delta,
                   -2 <= delta <= 2 /\ Driver.signal e' = Driver.signal e + delta)
              (Driver.active_connections d)
              (Driver.active_connections (fst (Driver.simulate_traffic d t i))))
  /\
  (forall (t : Rand.tape),
      Forall (fun e => -100 <= Driver.signal e <= -20)
             (Driver.active_connections (fst (Rand.run Driver.main t)))).
Proof.
  split; [|split].
  - intros nm ty d t i.
    destruct (connect_shape nm ty d t i) as (bytes & sig & _ & _ & Hs & ->).
    eexists. split; [reflexivity | exact Hs].
  - intros d t i. eapply Forall2_impl; [|apply simulate_traffic_shape].
    intros e e' (p & dl & _ & Hd & ->). exists dl. split; [assumption | reflexivity].
  - intros t. apply main_signal_range.
Qed.

(** ** The event log *)

Section DashboardLog.
Import Dashboard.

Lemma recent_length (lg : list string) :
  List.length (recent lg) = Nat.min 5 (List.length lg).
Proof. unfold recent, Py.last_k. rewrite length_skipn. lia. Qed.

Lemma recent_suffix (lg : list string) :
  lg = firstn (List.length lg - 5) lg ++ recent lg.
Proof. unfold recent, Py.last_k. now rewrite firstn_skipn. Qed.

Lemma log_once_NoDup (a : string) (lg : list string) :
  NoDup lg -> NoDup (log_once a lg).
Proof.
  intros H. destruct (log_once_cases a lg) as [[_ ->]|[N ->]]; [assumption|].
  apply NoDup_app; [assumption | repeat constructor; intros [] |].
  intros x Hx [<-|[]]. contradiction.
Qed.

Lemma ai_engine_NoDup (dev : device) (s : Z) (tr : float) (lg : list string) :
  NoDup lg -> NoDup (snd (ai_engine dev s tr lg)).
Proof.
  intros H.
  assert (H1 : NoDup (if s <? -85 then log_once (signal_boost_msg dev s) lg else lg)).
  { destruct (s <? -85); [now apply log_once_NoDup | assumption]. }
  destruct (elevation_dec dev tr) as [[Ha [Hb Hc]]|Hn].
  - rewrite ai_engine_elevates by assumption. simpl. now apply log_once_NoDup.
  - rewrite ai_engine_keeps by assumption. assumption.
Qed.

Lemma low_reading_listed (s : Z) :
  -95 <= s <= -30 -> s < -85 -> In s Obs.low_readings.
Proof.
  intros H1 H2. unfold Obs.low_readings.
  assert (E : s = -95 \/ s = -94 \/ s = -93 \/ s = -92 \/ s = -91 \/ s = -90
              \/ s = -89 \/ s = -88 \/ s = -87 \/ s = -86) by lia.
  simpl. intuition congruence.
Qed.

Lemma possible_entries_moved (lg : list string) (devs devs' : list device) :
  Forall2 (Obs.dash_moved lg) devs devs' ->
  Obs.possible_entries devs' = Obs.possible_entries devs.
Proof.
  unfold Obs.possible_entries. intros F. f_equal.
  induction F as [|d d' l l' M F IH]; [reflexivity|].
  cbn [flat_map]. rewrite IH. f_equal.
  destruct M as [->|(_ & _ & -> & _)]; reflexivity.
Qed.

Lemma possible_entries_cons (d : device) (devs : list device) (x : string) :
  In x (Obs.possible_entries devs) -> In x (Obs.possible_entries (d :: devs)).
Proof.
  unfold Obs.possible_entries. intros [H|H]; [now left | right].
  cbn [flat_map]. apply in_or_app. now right.
Qed.

Lemma device_loop_entries (devs : list device) (lg : list string)
      (t : Rand.tape) (i : nat) :
  (NoDup lg -> NoDup (snd (fst (device_loop devs lg t i))))
  /\ (forall x, In x (snd (fst (device_loop devs lg t i))) ->
                In x lg \/ In x (Obs.possible_entries devs)).
Proof.
  revert lg i. induction devs as [|dev rest IH]; intros lg i.
  - simpl. auto.
  - cbn [device_loop]. unfold Rand.bind.
    destruct (device_step_shape dev lg t i) as (s & tr & Hs & ->).
    pose proof (ai_engine_NoDup dev s tr lg) as N1.
    pose proof (ai_engine_entries dev s tr lg) as E1.
    destruct (ai_engine dev s tr lg) as [dev' lg1]. cbn [snd] in N1, E1.
    destruct (IH lg1 (S (S i))) as [N2 E2].
    destruct (device_loop rest lg1 t (S (S i))) as [[rest' lg2] j].
    unfold Rand.ret. cbn [fst snd] in *. split; [auto|].
    intros x Hx. destruct (E2 x Hx) as [H|H].
    + destruct (E1 x H) as [H' | [[Hlow ->] | ->]].
      * now left.
      * right. unfold Obs.possible_entries. right. cbn [flat_map].
        apply in_or_app. left. apply in_map. now apply low_reading_listed.
      * right. now left.
    + right. now apply possible_entries_cons.
Qed.

(** The log never holds a text twice and holds only texts of
    [possible_entries]; both survive any number of cycles. *)
Lemma cycles_entries (n : nat) (s : state) (t : Rand.tape) (i : nat) :
  NoDup (logs s) ->
  (forall x, In x (logs s) -> In x (Obs.possible_entries (devices s))) ->
  NoDup (logs (fst (cycles n s t i)))
  /\ (forall x, In x (logs (fst (cycles n s t i))) ->
                In x (Obs.possible_entries (devices s))).
Proof.
  revert s i. induction n as [|n IH]; intros s i N P.
  - simpl. auto.
  - cbn [cycles]. unfold Rand.bind.
    assert (C : NoDup (logs (fst (cycle s t i)))
                /\ (forall x, In x (logs (fst (cycle s t i))) ->
                              In x (Obs.possible_entries (devices s)))
                /\ Obs.possible_entries (devices (fst (cycle s t i)))
                   = Obs.possible_entries (devices s)).
    { destruct (cycle_shape s t i) as (_ & F & _).
      apply possible_entries_moved in F.
      unfold cycle, Rand.bind in *.
      destruct (device_loop_entries (devices s) (logs s) t i) as [N1 E1].
      destruct (device_loop (devices s) (logs s) t i) as [[devs lg] j].
      cbn [fst snd logs devices Rand.ret] in *.
      repeat split; [auto | | assumption].
      intros x Hx. destruct (E1 x Hx); auto. }
    destruct (cycle s t i) as [s' j]. cbn [fst] in C.
    destruct C as (N1 & P1 & E).
    rewrite <- E in P1. destruct (IH s' j N1 P1) as [N2 P2].
    split; [assumption|]. intros x Hx. rewrite <- E. auto.
Qed.

Lemma possible_entries_length (devs : list device) :
  List.length (Obs.possible_entries devs) = (1 + 10 * List.length devs)%nat.
Proof.
  assert (F : List.length
                (flat_map (fun d => map (signal_boost_msg d) Obs.low_readings) devs)
              = (10 * List.length devs)%nat).
  { induction devs as [|d devs IH]; [reflexivity|].
    cbn [flat_map]. rewrite length_app, IH, length_map.
    unfold Obs.low_readings. cbn [List.length]. lia. }
  unfold Obs.possible_entries. cbn [List.length]. rewrite F. lia.
Qed.

End DashboardLog.

(** C9, as stated, fails: the dashboard has no configured log size and
    never evicts.  The only size in the code is the 5 of the panel printed
    each cycle ([logs[-5:]]); after two cycles in which every device reads
    below -85 dBm the log holds ten entries and the oldest is still its
    first element. *)
Lemma C9_log_grows_past_the_panel :
  let s := Rand.run (Dashboard.cycles 2 (Dashboard.mkState Dashboard.DEVICES [] []))
                    (Rand.replay [5; 0; 5; 0; 5; 0; 5; 0; 5; 0; 6]) in
  List.length (Dashboard.logs s) = 10%nat
  /\ nth_error (Dashboard.logs s) 0
     = Some "AI ACTION: Signal boost for Living Room AC (-90dBm)"
  /\ map (@List.length string) (Dashboard.shown s) = [5; 5]%nat.
Proof. vm_compute. repeat split. Qed.

(** C9, amended.  The log is append-only: over any number of cycles the
    old log is a prefix of the new one, so no entry is ever evicted.  Each
    cycle shows the panel [logs[-5:]], the last five entries in order (all of
    them when there are fewer).  The log is nevertheless bounded, by
    deduplication: it never holds a text twice, and in [simulate] it never
    exceeds 51 entries (ten readings below -85 for each of the five devices,
    and the elevation message). *)
Theorem C9_log_is_append_only :
  (forall (n : nat) (s : Dashboard.state) (t : Rand.tape) (i : nat),
      exists suffix,
        Dashboard.logs (fst (Dashboard.cycles n s t i)) = Dashboard.logs s ++ suffix)
  /\
  (forall (s : Dashboard.state) (t : Rand.tape) (i : nat),
      Dashboard.shown (fst (Dashboard.cycle s t i))
      = Dashboard.shown s
          ++ [Dashboard.recent (Dashboard.logs (fst (Dashboard.cycle s t i)))])
  /\
  (forall (lg : list string),
      List.length (Dashboard.recent lg) = Nat.min 5 (List.length lg)
      /\ lg = firstn (List.length lg - 5) lg ++ Dashboard.recent lg)
  /\
  (forall (t : Rand.tape),
      NoDup (Dashboard.logs (Rand.run Dashboard.simulate t))
      /\ (List.length (Dashboard.logs (Rand.run Dashboard.simulate t)) <= 51)%nat).
Proof.
  split; [|split; [|split]].
  - intros n s t i. apply cycles_shape.
  - intros s t i. apply cycle_shape.
  - intros lg. split; [apply recent_length | apply recent_suffix].
  - intros t. unfold Rand.run, Dashboard.simulate.
    destruct (cycles_entries Dashboard.NUM_CYCLES
                (Dashboard.mkState Dashboard.DEVICES [] []) t 0%nat) as [N P].
    + constructor.
    + intros x [].
    + split; [assumption|].
      change 51%nat
        with (1 + 10 * List.length
                        (Dashboard.devices (Dashboard.mkState Dashboard.DEVICES [] [])))%nat.
      rewrite <- possible_entries_length.
      apply NoDup_incl_length; assumption.
Qed.


(** * Further properties of the two scripts *)

(** ** Row colour and engine action *)

(** X1.  The colour of a dashboard row is red exactly below -80 dBm, yellow
    exactly from -80 up to -71 and green from -70 on; every reading that
    makes the engine log a signal boost is shown in red, and the readings
    shown in red for which the signal rule stays silent are exactly -85 to
    -81. *)
Theorem X1_row_colour_and_signal_rule :
  forall (dev : Dashboard.device) (s : Z) (tr : float) (lg : list string),
    (View.status_color s = View.RED <-> s < -80)
    /\ (View.status_color s = View.YELLOW <-> -80 <= s < -70)
    /\ (View.status_color s = View.GREEN <-> -70 <= s)
    /\ (In (Dashboard.signal_boost_msg dev s) (snd (Dashboard.ai_engine dev s tr lg))
        -> ~ In (Dashboard.signal_boost_msg dev s) lg
        -> View.status_color s = View.RED)
    /\ ((View.status_color s = View.RED
         /\ (snd (Dashboard.ai_engine dev s tr lg) = lg
             \/ snd (Dashboard.ai_engine dev s tr lg) = lg ++ [Dashboard.elevate_msg])
         /\ ~ In (Dashboard.signal_boost_msg dev s) lg)
        <-> (-85 <= s < -80 /\ ~ In (Dashboard.signal_boost_msg dev s) lg)).
Proof.
  intros dev s tr lg.
  assert (C : (View.status_color s = View.RED <-> s < -80)
              /\ (View.status_color s = View.YELLOW <-> -80 <= s < -70)
              /\ (View.status_color s = View.GREEN <-> -70 <= s)).
  { unfold View.status_color.
    destruct (Z.ltb_spec s (-80)); [|destruct (Z.ltb_spec s (-70))];
      repeat split; intros; try lia; try reflexivity; discriminate. }
  destruct C as (R & Y & G).
  split; [exact R|]. split; [exact Y|]. split; [exact G|]. split.
  - intros Hin Hnot. apply R.
    apply ai_engine_entries in Hin as [Hin|[[Hs _]|Hin]].
    + contradiction.
    + lia.
    + now apply boost_not_elevate in Hin.
  - split.
    + intros (Hr & Hlog & Hnot). split; [|assumption]. apply R in Hr.
      destruct (Z.lt_ge_cases s (-85)) as [Hlow|]; [|lia].
      exfalso. apply Hnot.
      pose proof (ai_engine_logs_boost dev s tr lg Hlow) as Hin.
      destruct Hlog as [E|E]; rewrite E in Hin; [assumption|].
      apply in_app_or in Hin as [Hin|[Hin|[]]]; [assumption|].
      symmetry in Hin. now apply boost_not_elevate in Hin.
    + intros ([H1 H2] & Hnot). split; [apply R; lia|].
      split; [now apply ai_engine_high_reading | assumption].
Qed.

(** X1 on a fridge that reads -90 dBm with an empty log. *)
Lemma X1_row_colour_witness :
  View.status_color (-90) = View.RED.
Proof.
  apply (proj1 (proj2 (proj2 (proj2
           (X1_row_colour_and_signal_rule
              (Dashboard.mkDevice "Kitchen Fridge" "Refrigerator" "C1:44:8E:20:BC:99"
                                  "MEDIUM" 0)
              (-90) 1%float []))))).
  - simpl. left. reflexivity.
  - simpl. tauto.
Defined.

(** ** Traffic statistics *)

Section TrafficStats.
Import Driver.

Lemma traffic_loop_packets (conns : list device) (st : stats) (t : Rand.tape) (i : nat) :
  exists ps : list Z,
    List.length ps = List.length conns
    /\ Forall (fun p => 100 <= p <= 5000) ps
    /\ Forall2 (fun e' p => data_rate e' = PrimFloat.div (Py.float_of_int p) 0.5%float)
               (fst (fst (traffic_loop conns st t i))) ps
    /\ total_bytes (snd (fst (traffic_loop conns st t i)))
       = total_bytes st + Measure.sum ps.
Proof.
  revert st i. induction conns as [|dev rest IH]; intros st i.
  - exists []. simpl. repeat split; try constructor. lia.
  - cbn [traffic_loop]. unfold Rand.bind. cbn [Rand.randint].
    match goal with |- context [traffic_loop rest ?s t ?j] =>
      destruct (IH s j) as (ps & Hl & Hr & Hd & Hb);
      destruct (traffic_loop rest s t j) as [[rest' st'] k]
    end.
    unfold Rand.ret. cbn [fst snd] in *.
    exists ((100 + t i mod (5000 - 100 + 1)) :: ps). split; [|split; [|split]].
    + cbn [List.length]. now rewrite Hl.
    + constructor; [|assumption].
      pose proof (Z.mod_pos_bound (t i) (5000 - 100 + 1)). lia.
    + constructor; [reflexivity | assumption].
    + rewrite Hb. cbn [count_packet total_bytes Measure.sum fold_right].
      unfold Measure.sum. lia.
Qed.

Lemma sum_bounds (lo hi : Z) (ps : list Z) :
  Forall (fun p => lo <= p <= hi) ps ->
  lo * Z.of_nat (List.length ps) <= Measure.sum ps <= hi * Z.of_nat (List.length ps).
Proof.
  induction 1 as [|p ps Hp H IH].
  - simpl. lia.
  - cbn [List.length]. unfold Measure.sum in *. cbn [fold_right]. lia.
Qed.

Lemma Forall2_length_eq {A B : Type} (R : A -> B -> Prop) (l : list A) (l' : list B) :
  Forall2 R l l' -> List.length l = List.length l'.
Proof. induction 1; simpl; congruence. Qed.

Lemma rate_checked_all :
  forallb Measure.rate_checked Measure.packet_sizes = true.
Proof. vm_compute. reflexivity. Qed.

Lemma rate_checked_in_range (p : Z) :
  100 <= p <= 5000 -> Measure.rate_checked p = true.
Proof.
  intros H. pose proof rate_checked_all as A.
  rewrite forallb_forall in A. apply A.
  unfold Measure.packet_sizes.
  replace p with (Z.of_nat (Z.to_nat p)) by lia.
  apply in_map. apply in_seq. lia.
Qed.

End TrafficStats.

(** X2.  One traffic update keeps the number of entries, counts one packet
    per entry, leaves the optimisation counter alone and adds to the byte
    counter exactly the sum of the packet sizes whose rates it stored: at
    least 100 and at most 5000 bytes per entry. *)
Theorem X2_traffic_update_accounting :
  forall (d : Driver.driver) (t : Rand.tape) (i : nat),
    let d' := fst (Driver.simulate_traffic d t i) in
    let n := Z.of_nat (List.length (Driver.active_connections d)) in
    List.length (Driver.active_connections d')
      = List.length (Driver.active_connections d)
    /\ Driver.packets (Driver.driver_stats d')
       = Driver.packets (Driver.driver_stats d) + n
    /\ Driver.ai_optimizations (Driver.driver_stats d')
       = Driver.ai_optimizations (Driver.driver_stats d)
    /\ Driver.total_bytes (Driver.driver_stats d) + 100 * n
       <= Driver.total_bytes (Driver.driver_stats d')
       <= Driver.total_bytes (Driver.driver_stats d) + 5000 * n
    /\ exists ps : list Z,
         Forall2 (fun e' p => Driver.data_rate e'
                              = PrimFloat.div (Py.float_of_int p) 0.5%float)
                 (Driver.active_connections d') ps
         /\ Driver.total_bytes (Driver.driver_stats d')
            = Driver.total_bytes (Driver.driver_stats d) + Measure.sum ps.
Proof.
  intros d t i d' n. subst d' n.
  pose proof (simulate_traffic_shape d t i) as F.
  apply Forall2_length_eq in F.
  unfold Driver.simulate_traffic, Rand.bind in *.
  destruct (traffic_loop_shape (Driver.active_connections d) (Driver.driver_stats d) t i)
    as (_ & Hp & Ha).
  destruct (traffic_loop_packets (Driver.active_connections d) (Driver.driver_stats d) t i)
    as (ps & Hl & Hr & Hd & Hb).
  destruct (Driver.traffic_loop (Driver.active_connections d) (Driver.driver_stats d) t i)
    as [[conns st] j].
  unfold Rand.ret in *.
  cbn [fst snd Driver.active_connections Driver.driver_stats] in *.
  pose proof (sum_bounds 100 5000 ps Hr) as Hs. rewrite Hl in Hs.
  repeat split; try (symmetry; assumption); try assumption; try lia.
  exists ps. split; assumption.
Qed.

(** X3.  After a traffic update every stored data rate is twice the packet
    size drawn for the entry, as a float, and so lies between 200 and 10000
    bytes per second. *)
Theorem X3_data_rate_between_200_and_10000 :
  forall (d : Driver.driver) (t : Rand.tape) (i : nat),
    Forall (fun e' =>
              PrimFloat.leb 200%float (Driver.data_rate e') = true
              /\ PrimFloat.leb (Driver.data_rate e') 10000%float = true
              /\ exists p, 100 <= p <= 5000
                   /\ PrimFloat.eqb (Driver.data_rate e') (Py.float_of_int (2 * p)) = true)
           (Driver.active_connections (fst (Driver.simulate_traffic d t i))).
Proof.
  intros d t i. pose proof (simulate_traffic_shape d t i) as F.
  induction F as [|e e' l l' (p & dl & Hp & _ & ->) F IH]; constructor; [|assumption].
  pose proof (rate_checked_in_range p Hp) as C.
  unfold Measure.rate_checked in C. cbv zeta in C.
  apply andb_true_iff in C as [C C3]. apply andb_true_iff in C as [C1 C2].
  cbn [Driver.traffic_step Driver.data_rate].
  split; [assumption|]. split; [assumption|]. exists p. split; assumption.
Qed.


(** ** The optimisation pass, counted *)

Section PassCount.
Import Driver.

Lemma count_cons {A : Type} (f : A -> bool) (a : A) (l : list A) :
  Measure.count f (a :: l) = Z.b2z (f a) + Measure.count f l.
Proof.
  unfold Measure.count. cbn [filter]. destruct (f a); cbn [List.length Z.b2z]; lia.
Qed.

Lemma count_bounds {A : Type} (f : A -> bool) (l : list A) :
  0 <= Measure.count f l <= Z.of_nat (List.length l).
Proof.
  unfold Measure.count. pose proof (filter_length_le f l). lia.
Qed.

(** Headphones are not air conditioners: the first and the third rule
    never fire on the same entry. *)
Lemma audio_not_air_conditioner (dev : device) :
  audio_detected dev = true -> Measure.is_air_conditioner dev = false.
Proof.
  intros H. apply audio_detected_iff in H as [H _].
  unfold Measure.is_air_conditioner. now rewrite H.
Qed.

Lemma optimize_loop_count (conns : list device) (st : stats) (out : list string)
      (t : Rand.tape) (i : nat) :
  exists (lines : list string) (k : Z),
    snd (fst (optimize_loop conns st out t i)) = out ++ lines
    /\ Z.of_nat (List.length lines)
       = Measure.count audio_detected conns + Measure.count weak_signal conns + k
    /\ 0 <= k <= Measure.count Measure.is_air_conditioner conns
    /\ Z.of_nat (List.length lines) <= 2 * Z.of_nat (List.length conns).
Proof.
  revert st out i. induction conns as [|dev rest IH]; intros st out i.
  - exists [], 0. simpl. rewrite app_nil_r. unfold Measure.count. simpl.
    repeat split; lia.
  - cbn [optimize_loop]. unfold Rand.bind.
    destruct (optimize_device_shape dev st out t i) as (pw & Hpw & E).
    destruct (optimize_device (dev, st, out) t i) as [[[dev' st'] out'] j].
    cbn [fst] in E. injection E as -> -> ->.
    match goal with |- context [optimize_loop rest ?s ?o t j] =>
      destruct (IH s o j) as (lines & k & E & Hc & Hk & Hb);
      destruct (optimize_loop rest s o t j) as [[[rest' st''] out''] m]
    end.
    unfold Rand.ret. cbn [fst snd] in *. subst out''.
    exists ((if audio_detected dev then [boost_priority_msg dev] else [])
            ++ (if weak_signal dev then [signal_boost_msg dev] else [])
            ++ (if pw then [power_msg] else []) ++ lines), (Z.b2z pw + k).
    assert (Hac : Z.b2z pw <= Z.b2z (Measure.is_air_conditioner dev)).
    { destruct pw; [|destruct (Measure.is_air_conditioner dev); simpl; lia].
      unfold Measure.is_air_conditioner. rewrite (Hpw eq_refl). simpl. lia. }
    assert (Hex : Z.b2z (audio_detected dev) + Z.b2z (Measure.is_air_conditioner dev) <= 1).
    { destruct (audio_detected dev) eqn:Ha.
      - rewrite (audio_not_air_conditioner dev Ha). simpl. lia.
      - destruct (Measure.is_air_conditioner dev); simpl; lia. }
    rewrite !count_cons. cbn [List.length].
    assert (Hlen : Z.of_nat (List.length
                     ((if audio_detected dev then [boost_priority_msg dev] else [])
                      ++ (if weak_signal dev then [signal_boost_msg dev] else [])
                      ++ (if pw then [power_msg] else []) ++ lines))
                   = Z.b2z (audio_detected dev) + Z.b2z (weak_signal dev)
                     + Z.b2z pw + Z.of_nat (List.length lines)).
    { rewrite !length_app.
      destruct (audio_detected dev), (weak_signal dev), pw; cbn [List.length Z.b2z]; lia. }
    rewrite Hlen. split; [now rewrite <- !app_assoc|].
    assert (Z.b2z (weak_signal dev) <= 1) by (destruct (weak_signal dev); simpl; lia).
    assert (0 <= Z.b2z pw) by (destruct pw; simpl; lia).
    repeat split; lia.
Qed.

Lemma elevated_settled (dev : device) : audio_detected (elevated dev) = false.
Proof.
  unfold elevated. destruct (audio_detected dev) eqn:E; [|assumption].
  unfold audio_detected. cbn [set_priority priority type].
  now rewrite andb_false_r.
Qed.

Lemma elevated_twice (dev : device) : elevated (elevated dev) = elevated dev.
Proof.
  unfold elevated at 1. now rewrite elevated_settled.
Qed.

Lemma elevated_type (dev : device) : type (elevated dev) = type dev.
Proof. unfold elevated. now destruct (audio_detected dev). Qed.

Lemma elevated_headphones (dev : device) :
  type dev = "Bluetooth Headphones" -> priority (elevated dev) = "CRITICAL".
Proof.
  intros Ht. unfold elevated. destruct (audio_detected dev) eqn:E; [reflexivity|].
  unfold audio_detected in E. rewrite Ht, String.eqb_refl in E.
  cbn [andb] in E. apply negb_false_iff in E. now apply String.eqb_eq in E.
Qed.

End PassCount.

(** X4.  One optimisation pass keeps the entries in number and order and
    the traffic counters as they are, raises the optimisation counter by
    exactly the number of AI ACTION lines it prints, and prints one line per
    entry that is headphones not yet CRITICAL, one per entry below -80 dBm
    and at most one per air conditioner: never more than two lines per
    entry. *)
Theorem X4_pass_counts_its_actions :
  forall (d : Driver.driver) (t : Rand.tape) (i : nat),
    let r := fst (Driver.run_ai_optimization d t i) in
    let conns := Driver.active_connections d in
    List.length (Driver.active_connections (fst r)) = List.length conns
    /\ Driver.total_bytes (Driver.driver_stats (fst r))
       = Driver.total_bytes (Driver.driver_stats d)
    /\ Driver.packets (Driver.driver_stats (fst r))
       = Driver.packets (Driver.driver_stats d)
    /\ Driver.ai_optimizations (Driver.driver_stats (fst r))
       = Driver.ai_optimizations (Driver.driver_stats d)
         + Z.of_nat (List.length (snd r))
    /\ Z.of_nat (List.length (snd r)) <= 2 * Z.of_nat (List.length conns)
    /\ exists k : Z,
         0 <= k <= Measure.count Measure.is_air_conditioner conns
         /\ Z.of_nat (List.length (snd r))
            = Measure.count Driver.audio_detected conns
              + Measure.count Driver.weak_signal conns + k.
Proof.
  intros d t i r conns. subst r conns.
  destruct (run_ai_optimization_shape d t i) as (lines & E & _).
  pose proof (optimize_loop_count (Driver.active_connections d) (Driver.driver_stats d)
                [] t i) as (lines' & k & El & Hc & Hk & Hb).
  assert (lines' = lines).
  { unfold Driver.run_ai_optimization, Rand.bind in E.
    destruct (Driver.optimize_loop (Driver.active_connections d) (Driver.driver_stats d)
                [] t i) as [[[c s] o] j].
    unfold Rand.ret in E. cbn [fst snd] in *. injection E as _ _ ->. now subst. }
  subst lines'. rewrite E. cbn [fst snd Driver.active_connections Driver.driver_stats
                                 Driver.total_bytes Driver.packets Driver.ai_optimizations].
  rewrite length_map.
  split; [reflexivity|]. split; [reflexivity|]. split; [reflexivity|].
  split; [reflexivity|]. split; [assumption|].
  exists k. split; assumption.
Qed.

(** X5.  A pass settles the priorities: after it every Bluetooth
    Headphones entry is CRITICAL, and a second pass over the result, whatever
    the generator returns, leaves every entry as it is and prints no Boosting
    Priority line, only Signal Boost and compressor lines. *)
Theorem X5_second_pass_changes_no_entry :
  forall (d : Driver.driver) (t1 t2 : Rand.tape) (i1 i2 : nat),
    let r1 := fst (Driver.run_ai_optimization d t1 i1) in
    let r2 := fst (Driver.run_ai_optimization (fst r1) t2 i2) in
    Forall (fun e => Driver.type e = "Bluetooth Headphones" ->
                     Driver.priority e = "CRITICAL")
           (Driver.active_connections (fst r1))
    /\ Driver.active_connections (fst r2) = Driver.active_connections (fst r1)
    /\ (forall l, In l (snd r2) ->
          l = Driver.power_msg
          \/ exists e, In e (Driver.active_connections (fst r1))
                       /\ Driver.signal e < -80
                       /\ l = Driver.signal_boost_msg e).
Proof.
  intros d t1 t2 i1 i2 r1 r2. subst r2 r1.
  destruct (run_ai_optimization_shape d t1 i1) as (l1 & -> & _).
  cbn [fst Driver.active_connections].
  match goal with |- context [Driver.run_ai_optimization ?d1 t2 i2] =>
    destruct (run_ai_optimization_shape d1 t2 i2) as (l2 & -> & _ & _ & L)
  end.
  cbn [fst snd Driver.active_connections] in *. split; [|split].
  - apply Forall_map. apply Forall_forall. intros e _ Ht.
    rewrite elevated_type in Ht. now apply elevated_headphones.
  - rewrite map_map. apply map_ext. intros e. apply elevated_twice.
  - intros l Hl. destruct (L l Hl) as (e & He & [[Ha _]|[[Hw ->]|[_ ->]]]).
    + exfalso. apply in_map_iff in He as (e0 & <- & _).
      rewrite elevated_settled in Ha. discriminate.
    + right. exists e. split; [assumption|]. split; [|reflexivity].
      now apply weak_signal_iff.
    + now left.
Qed.

(** X5 on freshly connected headphones at -90 dBm: the second pass prints
    their Signal Boost line again and nothing about the priority. *)
Lemma X5_second_pass_witness :
  let xm4 := Driver.mkDevice "Sony XM4" "a8:11:7f:32:01:45" "Bluetooth Headphones" 4
                             "MEDIUM" (-90) 0%float "Connected" in
  let d := Driver.mkDriver [xm4] (Driver.mkStats 0 0 0) in
  let r1 := fst (Driver.run_ai_optimization d (Rand.replay []) 0%nat) in
  Driver.signal_boost_msg xm4 = Driver.power_msg
  \/ exists e, In e (Driver.active_connections (fst r1))
               /\ Driver.signal e < -80
               /\ Driver.signal_boost_msg xm4 = Driver.signal_boost_msg e.
Proof.
  apply (proj2 (proj2 (X5_second_pass_changes_no_entry
           (Driver.mkDriver
              [Driver.mkDevice "Sony XM4" "a8:11:7f:32:01:45" "Bluetooth Headphones" 4
                               "MEDIUM" (-90) 0%float "Connected"]
              (Driver.mkStats 0 0 0))
           (Rand.replay []) (Rand.replay []) 0%nat 0%nat))).
  vm_compute. left. reflexivity.
Defined.

(** ** Connections: type codes and addresses *)

Section ConnectFacts.
Import Driver.

Lemma DEVICE_TYPES_headphones (ty : Z) :
  DEVICE_TYPES ty = "Bluetooth Headphones" <-> ty = 4.
Proof.
  split; [|now intros ->].
  destruct ty as [|p|p]; try discriminate.
  repeat (destruct p as [p|p|]; simpl; try discriminate; try reflexivity).
Qed.

Lemma DEVICE_TYPES_air_conditioner (ty : Z) :
  DEVICE_TYPES ty = "Air Conditioner" <-> ty = 1.
Proof.
  split; [|now intros ->].
  destruct ty as [|p|p]; try discriminate.
  repeat (destruct p as [p|p|]; simpl; try discriminate; try reflexivity).
Qed.

Lemma DEVICE_TYPES_unknown (ty : Z) :
  DEVICE_TYPES ty = "Unknown" <-> ~ (1 <= ty <= 5).
Proof.
  split.
  - destruct ty as [|p|p]; try lia.
    repeat (destruct p as [p|p|]; simpl; try discriminate; try lia).
  - destruct ty as [|p|p]; try reflexivity.
    repeat (destruct p as [p|p|]; simpl; try reflexivity; try lia).
Qed.

Lemma hex_digit_value (n : Z) :
  0 <= n <= 15 -> Measure.digit_value (Py.hex_digit n) = n.
Proof.
  intros H.
  remember (Z.to_nat n) as k eqn:Ek.
  assert (K : (k < 16)%nat) by lia.
  assert (E : n = Z.of_nat k) by lia.
  rewrite E. clear - K.
  do 16 (destruct k as [|k]; [reflexivity|]). lia.
Qed.

(** A byte is recovered from the two digits [hex02] prints for it. *)
Lemma hex02_inj (a b : Z) :
  0 <= a <= 255 -> 0 <= b <= 255 -> Py.hex02 a = Py.hex02 b -> a = b.
Proof.
  intros Ha Hb H. unfold Py.hex02 in H. injection H as H1 H2.
  apply (f_equal Measure.digit_value) in H1, H2.
  assert (Ra : 0 <= a / 16 <= 15 /\ 0 <= a mod 16 <= 15)
    by (Z.to_euclidean_division_equations; lia).
  assert (Rb : 0 <= b / 16 <= 15 /\ 0 <= b mod 16 <= 15)
    by (Z.to_euclidean_division_equations; lia).
  rewrite !hex_digit_value in H1, H2 by tauto.
  Z.to_euclidean_division_equations. lia.
Qed.

Lemma address_inj (a1 a2 a3 a4 a5 a6 b1 b2 b3 b4 b5 b6 : Z) :
  Forall (fun x => 0 <= x <= 255) [a1; a2; a3; a4; a5; a6] ->
  Forall (fun x => 0 <= x <= 255) [b1; b2; b3; b4; b5; b6] ->
  Py.join ":" (map Py.hex02 [a1; a2; a3; a4; a5; a6])
  = Py.join ":" (map Py.hex02 [b1; b2; b3; b4; b5; b6]) ->
  [a1; a2; a3; a4; a5; a6] = [b1; b2; b3; b4; b5; b6].
Proof.
  intros Fa Fb H.
  repeat match goal with H : Forall _ (_ :: _) |- _ => inversion_clear H end.
  unfold Py.join, Py.hex02 in H. cbn [map String.concat String.append] in H.
  injection H as ? ? ? ? ? ? ? ? ? ? ? ?.
  repeat f_equal; apply hex02_inj; try assumption; unfold Py.hex02; congruence.
Qed.

Lemma address_length (bytes : list Z) :
  List.length bytes = 6%nat ->
  String.length (Py.join ":" (map Py.hex02 bytes)) = 17%nat.
Proof.
  intros H.
  do 6 (destruct bytes as [|? bytes]; [discriminate|]).
  destruct bytes; [reflexivity | discriminate].
Qed.

End ConnectFacts.

Section ConnectExplicit.
Import Driver.

Lemma connect_explicit (nm : string) (ty : Z) (d : driver) (t : Rand.tape) (i : nat) :
  fst (connect_mock_device nm ty d t i) =
    mkDriver
      (active_connections d ++
         [mkDevice nm
            (Py.join ":" (map Py.hex02
                              [t i mod 256; t (1 + i)%nat mod 256; t (2 + i)%nat mod 256;
                               t (3 + i)%nat mod 256; t (4 + i)%nat mod 256;
                               t (5 + i)%nat mod 256]))
            (DEVICE_TYPES ty) ty "MEDIUM"
            (-90 + t (6 + i)%nat mod 61) 0%float "Connected"])
      (driver_stats d).
Proof. reflexivity. Qed.

Lemma six_cells_range (t : Rand.tape) (i : nat) :
  Forall (fun x => 0 <= x <= 255)
         [t i mod 256; t (1 + i)%nat mod 256; t (2 + i)%nat mod 256;
          t (3 + i)%nat mod 256; t (4 + i)%nat mod 256; t (5 + i)%nat mod 256].
Proof.
  repeat constructor;
    match goal with |- _ <= ?x mod 256 => pose proof (Z.mod_pos_bound x 256); lia
                  | |- ?x mod 256 <= _ => pose proof (Z.mod_pos_bound x 256); lia end.
Qed.

End ConnectExplicit.

(** X6.  Connecting a device and running a pass: the new entry comes last,
    keeps the given name and is "Connected"; its type is "Unknown" exactly
    for a code outside 1..5; after the pass its priority is CRITICAL exactly
    for the headphones code 4 and MEDIUM for every other code; the entries
    that were there before are the ones a pass without the newcomer would
    give. *)
Theorem X6_connect_then_pass :
  forall (nm : string) (ty : Z) (d : Driver.driver) (t1 t2 : Rand.tape) (i1 i2 : nat),
    let d1 := fst (Driver.connect_mock_device nm ty d t1 i1) in
    let r := fst (Driver.run_ai_optimization d1 t2 i2) in
    exists e' : Driver.device,
      Driver.active_connections (fst r)
      = map Driver.elevated (Driver.active_connections d) ++ [e']
      /\ Driver.name e' = nm
      /\ Driver.status e' = "Connected"
      /\ Driver.type e' = Driver.DEVICE_TYPES ty
      /\ (Driver.type e' = "Unknown" <-> ~ (1 <= ty <= 5))
      /\ (Driver.priority e' = "CRITICAL" <-> ty = 4)
      /\ (Driver.priority e' = "MEDIUM" <-> ty <> 4).
Proof.
  intros nm ty d t1 t2 i1 i2 d1 r. subst r d1.
  rewrite connect_explicit.
  match goal with |- context [Driver.run_ai_optimization ?d1 t2 i2] =>
    destruct (run_ai_optimization_shape d1 t2 i2) as (lines & -> & _)
  end.
  cbn [fst Driver.active_connections]. rewrite map_app. cbn [map].
  eexists. split; [reflexivity|].
  rewrite elevated_name, elevated_type. cbn [Driver.name Driver.type].
  split; [reflexivity|]. split.
  { unfold Driver.elevated. now destruct (Driver.audio_detected _). }
  split; [reflexivity|]. split; [apply DEVICE_TYPES_unknown|].
  unfold Driver.elevated, Driver.audio_detected.
  cbn [Driver.type Driver.priority]. cbn [String.eqb Ascii.eqb Bool.eqb negb].
  rewrite andb_true_r.
  destruct (String.eqb_spec (Driver.DEVICE_TYPES ty) "Bluetooth Headphones") as [E|E];
    cbn [Driver.set_priority Driver.priority].
  - apply DEVICE_TYPES_headphones in E.
    split; split; intros H; try congruence; discriminate.
  - rewrite DEVICE_TYPES_headphones in E.
    split; split; intros H; try congruence; discriminate.
Qed.

(** X6 for the code 9, which [DEVICE_TYPES] does not list. *)
Lemma X6_connect_then_pass_witness :
  let d1 := fst (Driver.connect_mock_device "Smart Lamp" 9 Driver.init
                                            (Rand.replay []) 0%nat) in
  let r := fst (Driver.run_ai_optimization d1 (Rand.replay []) 0%nat) in
  exists e' : Driver.device,
    Driver.active_connections (fst r)
    = map Driver.elevated (Driver.active_connections Driver.init) ++ [e']
    /\ Driver.name e' = "Smart Lamp"
    /\ Driver.status e' = "Connected"
    /\ Driver.type e' = Driver.DEVICE_TYPES 9
    /\ (Driver.type e' = "Unknown" <-> ~ (1 <= 9 <= 5))
    /\ (Driver.priority e' = "CRITICAL" <-> 9 = 4)
    /\ (Driver.priority e' = "MEDIUM" <-> 9 <> 4).
Proof.
  exact (X6_connect_then_pass "Smart Lamp" 9 Driver.init
           (Rand.replay []) (Rand.replay []) 0%nat 0%nat).
Defined.

(** X7.  The address of a new connection is always 17 characters long, and
    it is read back from its text: two connections get the same address
    exactly when the six bytes drawn for them are the same. *)
Theorem X7_address_determined_by_six_bytes :
  forall (nm1 nm2 : string) (ty1 ty2 : Z) (d1 d2 : Driver.driver)
         (t1 t2 : Rand.tape) (i1 i2 : nat),
    exists e1 e2 : Driver.device,
      Driver.active_connections (fst (Driver.connect_mock_device nm1 ty1 d1 t1 i1))
      = Driver.active_connections d1 ++ [e1]
      /\ Driver.active_connections (fst (Driver.connect_mock_device nm2 ty2 d2 t2 i2))
         = Driver.active_connections d2 ++ [e2]
      /\ String.length (Driver.address e1) = 17%nat
      /\ (Driver.address e1 = Driver.address e2
          <-> forall k, (k < 6)%nat ->
                        t1 (k + i1)%nat mod 256 = t2 (k + i2)%nat mod 256).
Proof.
  intros nm1 nm2 ty1 ty2 d1 d2 t1 t2 i1 i2.
  rewrite !connect_explicit. cbn [Driver.active_connections].
  eexists _, _. split; [reflexivity|]. split; [reflexivity|].
  cbn [Driver.address]. split; [now apply address_length|]. split.
  - intros H. apply address_inj in H; try apply six_cells_range.
    injection H as H0 H1 H2 H3 H4 H5. intros k Hk.
    do 6 (destruct k as [|k]; [assumption|]). lia.
  - intros H.
    change (t1 i1) with (t1 (0 + i1)%nat). change (t2 i2) with (t2 (0 + i2)%nat).
    rewrite (H 0%nat), (H 1%nat), (H 2%nat), (H 3%nat), (H 4%nat), (H 5%nat) by lia.
    reflexivity.
Qed.

(** X7 on two tapes whose first six cells agree modulo 256. *)
Lemma X7_address_witness :
  let t1 := Rand.replay [180; 58; 146; 124; 245; 18; 7] in
  let t2 := Rand.replay [436; 314; 146; 124; 245; 18; 9] in
  exists e1 e2 : Driver.device,
    Driver.active_connections
      (fst (Driver.connect_mock_device "Living Room AC" 1 Driver.init t1 0%nat))
    = Driver.active_connections Driver.init ++ [e1]
    /\ Driver.active_connections
         (fst (Driver.connect_mock_device "Kitchen Fridge" 2 Driver.init t2 0%nat))
       = Driver.active_connections Driver.init ++ [e2]
    /\ String.length (Driver.address e1) = 17%nat
    /\ (Driver.address e1 = Driver.address e2
        <-> forall k, (k < 6)%nat ->
                      t1 (k + 0)%nat mod 256 = t2 (k + 0)%nat mod 256).
Proof.
  exact (X7_address_determined_by_six_bytes "Living Room AC" "Kitchen Fridge" 1 2
           Driver.init Driver.init
           (Rand.replay [180; 58; 146; 124; 245; 18; 7])
           (Rand.replay [436; 314; 146; 124; 245; 18; 9]) 0%nat 0%nat).
Defined.


(** ** The main loop of the driver *)

Section MainLoop.
Import Driver.

Lemma elevated_identity (e : device) :
  Measure.identity (elevated e) = Measure.identity e.
Proof. unfold elevated. now destruct (audio_detected e). Qed.

Lemma traffic_identity (d : driver) (t : Rand.tape) (i : nat) :
  map Measure.identity (active_connections (fst (simulate_traffic d t i)))
  = map Measure.identity (active_connections d).
Proof.
  pose proof (simulate_traffic_shape d t i) as F.
  induction F as [|e e' l l' (p & dl & _ & _ & ->) F IH]; [reflexivity|].
  cbn [map]. now rewrite IH.
Qed.

Lemma pass_identity (d : driver) (t : Rand.tape) (i : nat) :
  map Measure.identity (active_connections (fst (fst (run_ai_optimization d t i))))
  = map Measure.identity (active_connections d).
Proof.
  destruct (run_ai_optimization_shape d t i) as (lines & -> & _).
  cbn [fst active_connections]. rewrite map_map.
  apply map_ext. apply elevated_identity.
Qed.

(** One cycle of the main loop, in numbers. *)
Lemma main_cycle_accounting (k : Z) (s : driver * list string) (t : Rand.tape) (i : nat) :
  let r := fst (main_cycle k s t i) in
  let n := Z.of_nat (List.length (active_connections (fst s))) in
  map Measure.identity (active_connections (fst r))
  = map Measure.identity (active_connections (fst s))
  /\ packets (driver_stats (fst r)) = packets (driver_stats (fst s)) + n
  /\ total_bytes (driver_stats (fst s)) + 100 * n
     <= total_bytes (driver_stats (fst r))
     <= total_bytes (driver_stats (fst s)) + 5000 * n
  /\ (exists lines, snd r = snd s ++ lines
        /\ ai_optimizations (driver_stats (fst r))
           = ai_optimizations (driver_stats (fst s)) + Z.of_nat (List.length lines)).
Proof.
  destruct s as [d out]. cbn [fst snd]. unfold main_cycle, Rand.bind.
  pose proof (traffic_identity d t i) as I1.
  pose proof (simulate_traffic_shape d t i) as F. apply Forall2_length_eq in F.
  assert (A : let d' := fst (simulate_traffic d t i) in
              packets (driver_stats d')
              = packets (driver_stats d) + Z.of_nat (List.length (active_connections d))
              /\ ai_optimizations (driver_stats d') = ai_optimizations (driver_stats d)
              /\ total_bytes (driver_stats d)
                 + 100 * Z.of_nat (List.length (active_connections d))
                 <= total_bytes (driver_stats d')
                 <= total_bytes (driver_stats d)
                    + 5000 * Z.of_nat (List.length (active_connections d))).
  { cbv zeta. unfold simulate_traffic, Rand.bind.
    destruct (traffic_loop_shape (active_connections d) (driver_stats d) t i)
      as (_ & Hp & Ha).
    destruct (traffic_loop_packets (active_connections d) (driver_stats d) t i)
      as (ps & Hl & Hr & _ & Hb).
    destruct (traffic_loop (active_connections d) (driver_stats d) t i)
      as [[conns st] j].
    unfold Rand.ret. cbn [fst snd driver_stats] in *.
    pose proof (sum_bounds 100 5000 ps Hr) as Hs. rewrite Hl in Hs.
    repeat split; try assumption; lia. }
  cbv zeta in A. destruct A as (Hp & Ha & Hb).
  destruct (simulate_traffic d t i) as [d1 j]. cbn [fst] in *.
  destruct (k mod 2 =? 0).
  - unfold Rand.bind.
    pose proof (pass_identity d1 t j) as I2.
    destruct (run_ai_optimization_shape d1 t j) as (lines & E & _).
    destruct (run_ai_optimization d1 t j) as [[d2 l2] m].
    cbn [fst snd] in *. injection E as -> ->. unfold Rand.ret.
    cbn [fst snd active_connections driver_stats packets total_bytes
         ai_optimizations] in *.
    split; [now rewrite I2|]. split; [assumption|]. split; [assumption|].
    exists lines. split; [reflexivity | lia].
  - unfold Rand.ret. cbn [fst snd].
    split; [assumption|]. split; [assumption|]. split; [assumption|].
    exists []. rewrite app_nil_r. cbn [List.length]. split; [reflexivity | lia].
Qed.

Lemma for_range_accounting (n : nat) (k : Z) (s : driver * list string)
      (t : Rand.tape) (i : nat) :
  let r := fst (for_range n k main_cycle s t i) in
  let m := Z.of_nat (List.length (active_connections (fst s))) in
  map Measure.identity (active_connections (fst r))
  = map Measure.identity (active_connections (fst s))
  /\ packets (driver_stats (fst r)) = packets (driver_stats (fst s)) + m * Z.of_nat n
  /\ total_bytes (driver_stats (fst s)) + 100 * m * Z.of_nat n
     <= total_bytes (driver_stats (fst r))
     <= total_bytes (driver_stats (fst s)) + 5000 * m * Z.of_nat n
  /\ (exists lines, snd r = snd s ++ lines
        /\ ai_optimizations (driver_stats (fst r))
           = ai_optimizations (driver_stats (fst s)) + Z.of_nat (List.length lines)).
Proof.
  revert k s i. induction n as [|n IH]; intros k s i.
  - cbn [for_range]. unfold Rand.ret. cbn [fst].
    split; [reflexivity|]. split; [lia|]. split; [lia|].
    exists []. rewrite app_nil_r. cbn [List.length]. split; [reflexivity | lia].
  - cbn [for_range]. unfold Rand.bind.
    pose proof (main_cycle_accounting k s t i) as (I1 & P1 & B1 & (l1 & O1 & A1)).
    destruct (main_cycle k s t i) as [s1 j]. cbn [fst] in *.
    pose proof (IH (k + 1) s1 j) as (I2 & P2 & B2 & (l2 & O2 & A2)).
    assert (L : List.length (active_connections (fst s1))
                = List.length (active_connections (fst s))).
    { apply (f_equal (@List.length _)) in I1. now rewrite !length_map in I1. }
    rewrite L in *.
    split; [congruence|]. split; [lia|]. split; [lia|].
    exists (l1 ++ l2). rewrite length_app. split; [|lia].
    rewrite O2, O1. now rewrite app_assoc.
Qed.

End MainLoop.

(** X8.  After the connection nothing rewrites the name, address, type,
    type code or status of an entry, and no entry is added, dropped or
    moved: the traffic update, the optimisation pass and any number of cycles
    of the main loop keep them all, entry by entry. *)
Theorem X8_identity_of_entries_is_stable :
  (forall (d : Driver.driver) (t : Rand.tape) (i : nat),
      map Measure.identity
          (Driver.active_connections (fst (Driver.simulate_traffic d t i)))
      = map Measure.identity (Driver.active_connections d))
  /\
  (forall (d : Driver.driver) (t : Rand.tape) (i : nat),
      map Measure.identity
          (Driver.active_connections (fst (fst (Driver.run_ai_optimization d t i))))
      = map Measure.identity (Driver.active_connections d))
  /\
  (forall (n : nat) (k : Z) (s : Driver.driver * list string) (t : Rand.tape) (i : nat),
      map Measure.identity
          (Driver.active_connections
             (fst (fst (Driver.for_range n k Driver.main_cycle s t i))))
      = map Measure.identity (Driver.active_connections (fst s))).
Proof.
  split; [|split].
  - apply traffic_identity.
  - apply pass_identity.
  - intros n k s t i. apply for_range_accounting.
Qed.

(** X9.  Over any number of cycles of the main loop, from any state with m
    entries: the packet counter grows by m per cycle, the byte counter by
    100 m to 5000 m per cycle, the lines printed so far are kept and the
    optimisation counter grows by exactly the number of AI ACTION lines
    printed since. *)
Theorem X9_main_loop_accounting :
  forall (n : nat) (k : Z) (s : Driver.driver * list string) (t : Rand.tape) (i : nat),
    let r := fst (Driver.for_range n k Driver.main_cycle s t i) in
    let m := Z.of_nat (List.length (Driver.active_connections (fst s))) in
    Driver.packets (Driver.driver_stats (fst r))
    = Driver.packets (Driver.driver_stats (fst s)) + m * Z.of_nat n
    /\ Driver.total_bytes (Driver.driver_stats (fst s)) + 100 * m * Z.of_nat n
       <= Driver.total_bytes (Driver.driver_stats (fst r))
       <= Driver.total_bytes (Driver.driver_stats (fst s)) + 5000 * m * Z.of_nat n
    /\ exists lines,
         snd r = snd s ++ lines
         /\ Driver.ai_optimizations (Driver.driver_stats (fst r))
            = Driver.ai_optimizations (Driver.driver_stats (fst s))
              + Z.of_nat (List.length lines).
Proof.
  intros n k s t i. apply for_range_accounting.
Qed.

(** ** The whole of [main] *)

Section MainRun.
Import Driver.

Lemma settled_elevated (e : device) :
  priority e = "MEDIUM" \/ Measure.settled e -> Measure.settled (elevated e).
Proof.
  unfold Measure.settled. intros H. rewrite elevated_type.
  destruct (String.eqb_spec (type e) "Bluetooth Headphones") as [Ht|Ht].
  - now apply elevated_headphones.
  - apply String.eqb_neq in Ht. unfold elevated, audio_detected.
    rewrite Ht in *. cbn [andb]. now destruct H.
Qed.

Lemma traffic_keeps_settled (P : device -> Prop) (d : driver) (t : Rand.tape) (i : nat) :
  (forall e p dl, P e -> P (traffic_step p dl e)) ->
  Forall P (active_connections d) ->
  Forall P (active_connections (fst (simulate_traffic d t i))).
Proof.
  intros HP H. pose proof (simulate_traffic_shape d t i) as F.
  induction F as [|e e' l l' (p & dl & _ & _ & ->) F IH]; [constructor|].
  inversion H; subst. constructor; auto.
Qed.

Lemma main_cycle_settled (k : Z) (s : driver * list string) (t : Rand.tape) (i : nat) :
  Forall Measure.settled (active_connections (fst s)) ->
  Forall Measure.settled (active_connections (fst (fst (main_cycle k s t i)))).
Proof.
  destruct s as [d out]. cbn [fst]. intros H. unfold main_cycle, Rand.bind.
  pose proof (traffic_keeps_settled Measure.settled d t i (fun e p dl He => He) H) as H1.
  destruct (simulate_traffic d t i) as [d1 j]. cbn [fst] in H1.
  destruct (k mod 2 =? 0); [|exact H1].
  unfold Rand.bind.
  destruct (run_ai_optimization_shape d1 t j) as (lines & E & _).
  destruct (run_ai_optimization d1 t j) as [[d2 l2] m].
  cbn [fst] in E. injection E as -> ->. unfold Rand.ret. cbn [fst active_connections].
  apply Forall_map. eapply Forall_impl; [|exact H1].
  intros e He. apply settled_elevated. now right.
Qed.

Lemma for_range_settled (n : nat) (k : Z) (s : driver * list string)
      (t : Rand.tape) (i : nat) :
  Forall Measure.settled (active_connections (fst s)) ->
  Forall Measure.settled
         (active_connections (fst (fst (for_range n k main_cycle s t i)))).
Proof.
  revert k s i. induction n as [|n IH]; intros k s i H; [exact H|].
  cbn [for_range]. unfold Rand.bind.
  pose proof (main_cycle_settled k s t i H) as H1.
  destruct (main_cycle k s t i) as [s1 j]. now apply IH.
Qed.

(** The first cycle runs a pass: entries that were all MEDIUM are settled
    by it, and every headphones entry gets its line. *)
Lemma first_cycle_settles (d : driver) (out : list string) (t : Rand.tape) (i : nat) :
  Forall (fun e => priority e = "MEDIUM") (active_connections d) ->
  Forall Measure.settled (active_connections (fst (fst (main_cycle 0 (d, out) t i))))
  /\ (forall e, In e (active_connections d) -> type e = "Bluetooth Headphones" ->
                In (("  > AI ACTION: Boosting Priority for '" ++ name e
                     ++ "' to CRITICAL (Audio Detection)")%string)
                   (snd (fst (main_cycle 0 (d, out) t i)))).
Proof.
  intros H. unfold main_cycle, Rand.bind.
  pose proof (traffic_keeps_settled (fun e => priority e = "MEDIUM") d t i
                (fun e p dl He => He) H) as H1.
  pose proof (simulate_traffic_shape d t i) as F.
  destruct (simulate_traffic d t i) as [d1 j]. cbn [fst] in H1, F.
  change (0 mod 2 =? 0) with true. cbv iota. unfold Rand.bind.
  destruct (run_ai_optimization_shape d1 t j) as (lines & E & A & _).
  destruct (run_ai_optimization d1 t j) as [[d2 l2] m].
  cbn [fst] in E. injection E as -> ->. unfold Rand.ret.
  cbn [fst snd active_connections]. split.
  - apply Forall_map. eapply Forall_impl; [|exact H1].
    intros e He. apply settled_elevated. now left.
  - intros e He Ht. apply in_or_app. right.
    apply In_nth_error in He as [k Hk].
    destruct (nth_error (active_connections d1) k) as [e1|] eqn:Hk1.
    + pose proof (Forall2_nth_error _ _ _ _ _ _ F Hk Hk1) as (p & dl & _ & _ & ->).
      assert (I1 : In (traffic_step p dl e) (active_connections d1))
        by (eapply nth_error_In; eauto).
      specialize (A _ I1). apply A. apply audio_detected_iff.
      cbn [traffic_step type priority]. split; [assumption|].
      rewrite Forall_forall in H. rewrite (H e) by (eapply nth_error_In; eauto).
      discriminate.
    + exfalso. apply Forall2_length_eq in F.
      apply nth_error_None in Hk1.
      assert (k < List.length (active_connections d))%nat
        by (apply nth_error_Some; congruence).
      lia.
Qed.

Lemma settled_priorities (l : list device) :
  Forall Measure.settled l ->
  map priority l
  = map (fun ty => if (ty =? "Bluetooth Headphones")%string then "CRITICAL" else "MEDIUM")
        (map type l).
Proof.
  induction 1 as [|e l He H IH]; [reflexivity|].
  cbn [map]. now rewrite IH, He.
Qed.

Lemma connect_all_start (t : Rand.tape) (i : nat) :
  map (fun e => (name e, type e, priority e, status e))
      (active_connections (fst (connect_all t i)))
  = [("Living Room AC", "Air Conditioner", "MEDIUM", "Connected");
     ("Kitchen Fridge", "Refrigerator", "MEDIUM", "Connected");
     ("Sony XM4", "Bluetooth Headphones", "MEDIUM", "Connected");
     ("Samsung S23", "Mobile Phone", "MEDIUM", "Connected");
     ("Sony Bravia TV", "Android TV", "MEDIUM", "Connected")]
  /\ driver_stats (fst (connect_all t i)) = mkStats 0 0 0.
Proof. split; reflexivity. Qed.

End MainRun.

Section MainEnd.
Import Driver.

Lemma identity_name (l : list device) :
  map name l = map (fun x => fst (fst (fst (fst x)))) (map Measure.identity l).
Proof. rewrite map_map. reflexivity. Qed.

Lemma identity_type (l : list device) :
  map type l = map (fun x => snd (fst (fst x))) (map Measure.identity l).
Proof. rewrite map_map. reflexivity. Qed.

Lemma identity_status (l : list device) :
  map status l = map (fun x => snd x) (map Measure.identity l).
Proof. rewrite map_map. reflexivity. Qed.

Lemma main_loop_settles (n : nat) (d : driver) (out : list string)
      (t : Rand.tape) (i : nat) :
  Forall (fun e => priority e = "MEDIUM") (active_connections d) ->
  Forall Measure.settled
         (active_connections (fst (fst (for_range (S n) 0 main_cycle (d, out) t i))))
  /\ (forall e, In e (active_connections d) -> type e = "Bluetooth Headphones" ->
                In (("  > AI ACTION: Boosting Priority for '" ++ name e
                     ++ "' to CRITICAL (Audio Detection)")%string)
                   (snd (fst (for_range (S n) 0 main_cycle (d, out) t i)))).
Proof.
  intros H. cbn [for_range]. unfold Rand.bind.
  destruct (first_cycle_settles d out t i H) as [S1 L1].
  destruct (main_cycle 0 (d, out) t i) as [s1 j]. cbn [fst snd] in *.
  split; [now apply for_range_settled|].
  intros e He Ht.
  pose proof (for_range_accounting n (0 + 1) s1 t j) as (_ & _ & _ & (lines & -> & _)).
  apply in_or_app. left. auto.
Qed.

End MainEnd.

(** X10.  Whatever the generator returns, [main] ends with the five
    devices in connection order, all still "Connected"; the Sony XM4 is
    CRITICAL and every other device is MEDIUM; 25 packets and between 2500
    and 125000 bytes were counted; the optimisation counter equals the
    number of AI ACTION lines printed, and the Boosting Priority line of the
    Sony XM4 is one of them. *)
Theorem X10_main_final_state :
  forall (t : Rand.tape),
    let r := Rand.run Driver.main t in
    let conns := Driver.active_connections (fst r) in
    map Driver.name conns
    = ["Living Room AC"; "Kitchen Fridge"; "Sony XM4"; "Samsung S23"; "Sony Bravia TV"]
    /\ map Driver.type conns
       = ["Air Conditioner"; "Refrigerator"; "Bluetooth Headphones"; "Mobile Phone";
          "Android TV"]
    /\ map Driver.priority conns = ["MEDIUM"; "MEDIUM"; "CRITICAL"; "MEDIUM"; "MEDIUM"]
    /\ map Driver.status conns
       = ["Connected"; "Connected"; "Connected"; "Connected"; "Connected"]
    /\ Driver.packets (Driver.driver_stats (fst r)) = 25
    /\ 2500 <= Driver.total_bytes (Driver.driver_stats (fst r)) <= 125000
    /\ Driver.ai_optimizations (Driver.driver_stats (fst r))
       = Z.of_nat (List.length (snd r))
    /\ In "  > AI ACTION: Boosting Priority for 'Sony XM4' to CRITICAL (Audio Detection)"
          (snd r).
Proof.
  intros t r conns. subst conns r. unfold Rand.run, Driver.main, Rand.bind.
  pose proof (connect_all_start t 0%nat) as [K S0].
  destruct (Driver.connect_all t 0%nat) as [d0 j0]. cbn [fst] in K, S0.
  pose proof (for_range_accounting 5 0 (d0, []) t j0) as (I & P & B & (lines & O & A)).
  cbn [fst snd] in I, P, B, O, A.
  destruct (Driver.active_connections d0) as [|e1 [|e2 [|e3 [|e4 [|e5 [|e6 l]]]]]] eqn:E0;
    try discriminate K.
  cbn [map] in K.
  injection K as N1 T1 P1 C1 N2 T2 P2 C2 N3 T3 P3 C3 N4 T4 P4 C4 N5 T5 P5 C5.
  assert (M : Forall (fun e => Driver.priority e = "MEDIUM") (Driver.active_connections d0)).
  { rewrite E0. repeat constructor; assumption. }
  destruct (main_loop_settles 4 d0 [] t j0 M) as [S L].
  specialize (L e3). rewrite E0 in L. specialize (L ltac:(simpl; tauto) T3).
  rewrite N3 in L.
  apply settled_priorities in S.
  rewrite S0 in P, B, A. cbn [Driver.packets Driver.total_bytes Driver.ai_optimizations
                               List.length] in P, B, A.
  rewrite identity_name, identity_type, identity_status, S, identity_type, I.
  cbn [map Measure.identity fst snd].
  rewrite N1, N2, N3, N4, N5, T1, T2, T3, T4, T5, C1, C2, C3, C4, C5.
  rewrite O. cbn [app].
  repeat split; try reflexivity; try lia.
  rewrite O in L. exact L.
Qed.

(** ** How many random numbers each operation draws *)

Section Draws.

Lemma traffic_loop_cursor (conns : list Driver.device) (st : Driver.stats)
      (t : Rand.tape) (i : nat) :
  snd (Driver.traffic_loop conns st t i) = (2 * List.length conns + i)%nat.
Proof.
  revert st i. induction conns as [|dev rest IH]; intros st i; [reflexivity|].
  cbn [Driver.traffic_loop]. unfold Rand.bind. cbn [Rand.randint].
  match goal with |- context [Driver.traffic_loop rest ?s t ?j] =>
    specialize (IH s j); destruct (Driver.traffic_loop rest s t j) as [[rest' st'] k]
  end.
  unfold Rand.ret. cbn [snd List.length] in *. lia.
Qed.

Lemma optimize_device_draws (dev : Driver.device) (st : Driver.stats)
      (out : list string) (t : Rand.tape) (i : nat) :
  Z.of_nat (snd (Driver.optimize_device (dev, st, out) t i))
  = Z.of_nat i + Z.b2z (Measure.is_air_conditioner dev).
Proof.
  unfold Driver.optimize_device.
  assert (E : exists st1 out1 dev1,
             Driver.rule_signal (Driver.rule_priority (dev, st, out)) = (dev1, st1, out1)
             /\ Driver.type dev1 = Driver.type dev).
  { unfold Driver.rule_priority, Driver.rule_signal.
    destruct (Driver.audio_detected dev);
      [ change (Driver.weak_signal (Driver.set_priority "CRITICAL" dev))
          with (Driver.weak_signal dev) |];
      destruct (Driver.weak_signal dev); do 3 eexists; split; reflexivity. }
  destruct E as (st1 & out1 & dev1 & -> & Hty).
  unfold Driver.rule_power, Measure.is_air_conditioner. rewrite Hty.
  destruct (Driver.type dev =? "Air Conditioner")%string.
  - unfold Rand.bind, Rand.random.
    match goal with |- context [PrimFloat.ltb ?a ?b] =>
      destruct (PrimFloat.ltb a b) end; unfold Rand.ret; cbn [snd Z.b2z]; lia.
  - unfold Rand.ret. cbn [snd Z.b2z]. lia.
Qed.

Lemma optimize_loop_draws (conns : list Driver.device) (st : Driver.stats)
      (out : list string) (t : Rand.tape) (i : nat) :
  Z.of_nat (snd (Driver.optimize_loop conns st out t i))
  = Z.of_nat i + Measure.count Measure.is_air_conditioner conns.
Proof.
  revert st out i. induction conns as [|dev rest IH]; intros st out i.
  - unfold Measure.count. simpl. lia.
  - cbn [Driver.optimize_loop]. unfold Rand.bind.
    pose proof (optimize_device_draws dev st out t i) as D.
    destruct (Driver.optimize_device (dev, st, out) t i) as [[[dev' st'] out'] j].
    cbn [snd] in D. specialize (IH st' out' j).
    destruct (Driver.optimize_loop rest st' out' t j) as [[[rest' st''] out''] k].
    unfold Rand.ret. cbn [snd] in *. rewrite count_cons. lia.
Qed.

Lemma device_loop_cursor (devs : list Dashboard.device) (lg : list string)
      (t : Rand.tape) (i : nat) :
  snd (Dashboard.device_loop devs lg t i) = (2 * List.length devs + i)%nat.
Proof.
  revert lg i. induction devs as [|dev rest IH]; intros lg i; [reflexivity|].
  cbn [Dashboard.device_loop]. unfold Rand.bind.
  destruct (device_step_shape dev lg t i) as (s & tr & _ & ->).
  destruct (Dashboard.ai_engine dev s tr lg) as [dev' lg1].
  specialize (IH lg1 (S (S i))).
  destruct (Dashboard.device_loop rest lg1 t (S (S i))) as [[rest' lg2] j].
  unfold Rand.ret. cbn [snd List.length] in *. lia.
Qed.

End Draws.

(** X11.  The number of calls to the random generator is fixed by the
    entries, not by the values drawn: a connection makes 7 calls, a traffic
    update 2 per entry, an optimisation pass one per Air Conditioner entry
    and none for any other entry, and a dashboard cycle 2 per device. *)
Theorem X11_draws_per_operation :
  (forall (nm : string) (ty : Z) (d : Driver.driver) (t : Rand.tape) (i : nat),
      snd (Driver.connect_mock_device nm ty d t i) = (7 + i)%nat)
  /\
  (forall (d : Driver.driver) (t : Rand.tape) (i : nat),
      snd (Driver.simulate_traffic d t i)
      = (2 * List.length (Driver.active_connections d) + i)%nat)
  /\
  (forall (d : Driver.driver) (t : Rand.tape) (i : nat),
      Z.of_nat (snd (Driver.run_ai_optimization d t i))
      = Z.of_nat i
        + Measure.count Measure.is_air_conditioner (Driver.active_connections d))
  /\
  (forall (s : Dashboard.state) (t : Rand.tape) (i : nat),
      snd (Dashboard.cycle s t i)
      = (2 * List.length (Dashboard.devices s) + i)%nat).
Proof.
  split; [|split; [|split]].
  - reflexivity.
  - intros d t i. unfold Driver.simulate_traffic, Rand.bind.
    pose proof (traffic_loop_cursor (Driver.active_connections d)
                  (Driver.driver_stats d) t i) as C.
    destruct (Driver.traffic_loop _ _ t i) as [[conns st] j]. exact C.
  - intros d t i. unfold Driver.run_ai_optimization, Rand.bind.
    pose proof (optimize_loop_draws (Driver.active_connections d)
                  (Driver.driver_stats d) [] t i) as C.
    destruct (Driver.optimize_loop _ _ _ t i) as [[[conns st] out] j]. exact C.
  - intros s t i. unfold Dashboard.cycle, Rand.bind.
    pose proof (device_loop_cursor (Dashboard.devices s) (Dashboard.logs s) t i) as C.
    destruct (Dashboard.device_loop _ _ t i) as [[devs lg] j]. exact C.
Qed.

(** ** What the dashboard changes *)

Section DashboardDevices.
Import Dashboard.

Lemma dash_moved_label (lg : list string) (d d' : device) :
  Obs.dash_moved lg d d' ->
  Measure.label d' = Measure.label d /\ (type d <> "Headphones" -> d' = d).
Proof.
  intros [->|(Ht & _ & -> & _)]; split; try reflexivity; intros N; now elim N.
Qed.

(** The elevation message enters the log only through a Headphones
    entry. *)
Lemma ai_engine_elevate_source (dev : device) (s : Z) (tr : float) (lg : list string) :
  In elevate_msg (snd (ai_engine dev s tr lg)) ->
  In elevate_msg lg \/ type dev = "Headphones".
Proof.
  destruct (elevation_dec dev tr) as [[Ha _]|H]; [now right|].
  rewrite ai_engine_keeps by assumption. cbn [snd].
  destruct (s <? -85); [|now left].
  destruct (log_once_cases (signal_boost_msg dev s) lg) as [[_ ->]|[_ ->]]; [now left|].
  intros Hin. apply in_app_or in Hin as [Hin|[Hin|[]]]; [now left|].
  now apply boost_not_elevate in Hin.
Qed.

Lemma device_loop_elevate_source (devs : list device) (lg : list string)
      (t : Rand.tape) (i : nat) :
  In elevate_msg (snd (fst (device_loop devs lg t i))) ->
  In elevate_msg lg \/ exists d, In d devs /\ type d = "Headphones".
Proof.
  revert lg i. induction devs as [|dev rest IH]; intros lg i.
  - simpl. now left.
  - cbn [device_loop]. unfold Rand.bind.
    destruct (device_step_shape dev lg t i) as (s & tr & _ & ->).
    pose proof (ai_engine_elevate_source dev s tr lg) as A.
    destruct (ai_engine dev s tr lg) as [dev' lg1]. cbn [snd] in A.
    specialize (IH lg1 (S (S i))).
    destruct (device_loop rest lg1 t (S (S i))) as [[rest' lg2] j].
    unfold Rand.ret. cbn [fst snd] in *. intros Hin.
    destruct (IH Hin) as [H|(d & Hd & Ht)].
    + destruct (A H) as [H'|H']; [now left|].
      right. exists dev. split; [now left | assumption].
    + right. exists d. split; [now right | assumption].
Qed.

Lemma Forall2_unmoved (lg : list string) (l l' : list device) :
  (forall d, In d l -> type d <> "Headphones") ->
  Forall2 (Obs.dash_moved lg) l l' -> l' = l.
Proof.
  intros H F. induction F as [|d d' l l' M F IH]; [reflexivity|].
  f_equal.
  - apply (dash_moved_label _ _ _ M). apply H. now left.
  - apply IH. intros x Hx. apply H. now right.
Qed.

Lemma cycles_elevate_source (n : nat) (s : state) (t : Rand.tape) (i : nat) :
  (forall d, In d (devices s) -> type d <> "Headphones") ->
  In elevate_msg (logs (fst (cycles n s t i))) -> In elevate_msg (logs s).
Proof.
  revert s i. induction n as [|n IH]; intros s i H; [auto|].
  cbn [cycles]. unfold Rand.bind.
  destruct (cycle_shape s t i) as (_ & F & _).
  apply Forall2_unmoved in F; [|assumption].
  assert (A : In elevate_msg (logs (fst (cycle s t i))) -> In elevate_msg (logs s)).
  { unfold cycle, Rand.bind.
    pose proof (device_loop_elevate_source (devices s) (logs s) t i) as D.
    destruct (device_loop (devices s) (logs s) t i) as [[devs lg] j].
    unfold Rand.ret. cbn [fst snd logs] in *. intros Hin.
    destruct (D Hin) as [H'|(d & Hd & Ht)]; [assumption|].
    exfalso. now apply (H d). }
  destruct (cycle s t i) as [s1 j]. cbn [fst] in *.
  intros Hin. apply A. apply (IH s1 j); [|assumption].
  rewrite F. assumption.
Qed.

End DashboardDevices.

(** X12.  Dashboard cycles never add, drop or reorder devices and never
    touch a name, type, address or load; an entry that is not Headphones
    comes out of any number of cycles exactly as it went in.  In [simulate]
    the devices at the end are [DEVICES] itself or [DEVICES] with the Sony
    XM4 at CRITICAL, whatever the generator returns. *)
Theorem X12_dashboard_only_moves_headphones :
  (forall (n : nat) (s : Dashboard.state) (t : Rand.tape) (i : nat),
      map Measure.label (Dashboard.devices (fst (Dashboard.cycles n s t i)))
      = map Measure.label (Dashboard.devices s)
      /\ Forall2 (fun d d' => Dashboard.type d <> "Headphones" -> d' = d)
                 (Dashboard.devices s)
                 (Dashboard.devices (fst (Dashboard.cycles n s t i))))
  /\
  (forall (t : Rand.tape),
      Dashboard.devices (Rand.run Dashboard.simulate t) = Dashboard.DEVICES
      \/ Dashboard.devices (Rand.run Dashboard.simulate t)
         = [ Dashboard.mkDevice "Living Room AC" "Air Conditioner" "B4:3A:92:7C:F5:12"
                                "MEDIUM" 0;
             Dashboard.mkDevice "Kitchen Fridge" "Refrigerator" "C1:44:8E:20:BC:99"
                                "MEDIUM" 0;
             Dashboard.mkDevice "Sony XM4" "Headphones" "A8:11:7F:32:01:45" "CRITICAL" 0;
             Dashboard.mkDevice "Samsung S23" "Mobile Phone" "D9:92:1C:88:A3:21"
                                "MEDIUM" 0;
             Dashboard.mkDevice "Sony Bravia TV" "Android TV" "E2:33:00:11:CC:DD"
                                "LOW" 0 ]).
Proof.
  split.
  - intros n s t i. destruct (cycles_shape n s t i) as [_ F].
    split.
    + induction F as [|d d' l l' M F IH]; [reflexivity|].
      cbn [map]. rewrite IH. f_equal. apply (dash_moved_label _ _ _ M).
    + eapply Forall2_impl; [|exact F]. intros d d' M. apply (dash_moved_label _ _ _ M).
  - intros t. unfold Rand.run, Dashboard.simulate.
    destruct (cycles_shape Dashboard.NUM_CYCLES
                (Dashboard.mkState Dashboard.DEVICES [] []) t 0%nat) as [_ F].
    remember (Dashboard.devices (fst (Dashboard.cycles Dashboard.NUM_CYCLES
                (Dashboard.mkState Dashboard.DEVICES [] []) t 0%nat))) as final eqn:Ef.
    clear Ef. cbn [Dashboard.devices] in F. unfold Dashboard.DEVICES in F.
    unfold Dashboard.DEVICES.
    inversion F as [|? d1 ? l1 M1 F1]; subst.
    inversion F1 as [|? d2 ? l2 M2 F2]; subst.
    inversion F2 as [|? d3 ? l3 M3 F3]; subst.
    inversion F3 as [|? d4 ? l4 M4 F4]; subst.
    inversion F4 as [|? d5 ? l5 M5 F5]; subst.
    inversion F5; subst.
    apply dash_moved_label in M1 as [_ M1], M2 as [_ M2], M4 as [_ M4], M5 as [_ M5].
    rewrite M1, M2, M4, M5 by (cbn [Dashboard.type]; discriminate).
    destruct M3 as [->|(_ & _ & -> & _)]; [now left | now right].
Qed.

(** X12 on [DEVICES] over three cycles in which the Sony XM4 is raised. *)
Lemma X12_dashboard_witness :
  let s := Dashboard.mkState Dashboard.DEVICES [] [] in
  let t := Rand.replay [0; 0; 0; 0; 40; 4000000000000000] in
  map Measure.label (Dashboard.devices (fst (Dashboard.cycles 3 s t 0%nat)))
  = map Measure.label (Dashboard.devices s).
Proof.
  exact (proj1 (proj1 X12_dashboard_only_moves_headphones 3%nat
                  (Dashboard.mkState Dashboard.DEVICES [] [])
                  (Rand.replay [0; 0; 0; 0; 40; 4000000000000000]) 0%nat)).
Defined.

(** X13.  If no device is Headphones, any number of dashboard cycles leaves
    every device as it is and never logs the elevation message. *)
Theorem X13_no_headphones_no_elevation :
  forall (n : nat) (s : Dashboard.state) (t : Rand.tape) (i : nat),
    (forall d, In d (Dashboard.devices s) -> Dashboard.type d <> "Headphones") ->
    Dashboard.devices (fst (Dashboard.cycles n s t i)) = Dashboard.devices s
    /\ (~ In Dashboard.elevate_msg (Dashboard.logs s) ->
        ~ In Dashboard.elevate_msg (Dashboard.logs (fst (Dashboard.cycles n s t i)))).
Proof.
  intros n s t i H. split.
  - destruct (cycles_shape n s t i) as [_ F]. now apply Forall2_unmoved in F.
  - intros N Hin. apply N. now apply (cycles_elevate_source n s t i).
Qed.

(** X13 on a fridge and a phone over the twenty cycles. *)
Lemma X13_no_headphones_witness :
  let s := Dashboard.mkState
             [Dashboard.mkDevice "Kitchen Fridge" "Refrigerator" "C1:44:8E:20:BC:99"
                                 "MEDIUM" 0;
              Dashboard.mkDevice "Samsung S23" "Mobile Phone" "D9:92:1C:88:A3:21"
                                 "MEDIUM" 0] [] [] in
  let r := fst (Dashboard.cycles 20 s (Rand.replay [5; 9007199254740991]) 0%nat) in
  Dashboard.devices r = Dashboard.devices s
  /\ (~ In Dashboard.elevate_msg (Dashboard.logs s) ->
      ~ In Dashboard.elevate_msg (Dashboard.logs r)).
Proof.
  apply (X13_no_headphones_no_elevation 20%nat
           (Dashboard.mkState
              [Dashboard.mkDevice "Kitchen Fridge" "Refrigerator" "C1:44:8E:20:BC:99"
                                  "MEDIUM" 0;
               Dashboard.mkDevice "Samsung S23" "Mobile Phone" "D9:92:1C:88:A3:21"
                                  "MEDIUM" 0] [] [])
           (Rand.replay [5; 9007199254740991]) 0%nat).
  intros d [<-|[<-|[]]]; simpl; discriminate.
Defined.

(** ** The log and its panels over many cycles *)

(** X14.  From any state whose log holds no text twice and only texts the
    dashboard can produce for its devices (an empty log, for one), any number
    of cycles keeps both properties: every entry is the elevation message or
    a signal-boost message of a listed device at a reading from -95 to -86,
    the elevation message occurs at most once, and the log never grows past
    ten entries per device plus one. *)
Theorem X14_log_texts_unique_and_bounded :
  forall (n : nat) (s : Dashboard.state) (t : Rand.tape) (i : nat),
    NoDup (Dashboard.logs s) ->
    (forall x, In x (Dashboard.logs s) ->
               In x (Obs.possible_entries (Dashboard.devices s))) ->
    let lg := Dashboard.logs (fst (Dashboard.cycles n s t i)) in
    NoDup lg
    /\ (forall x, In x lg -> In x (Obs.possible_entries (Dashboard.devices s)))
    /\ (List.length lg <= 1 + 10 * List.length (Dashboard.devices s))%nat
    /\ (count_occ string_dec lg Dashboard.elevate_msg <= 1)%nat.
Proof.
  intros n s t i N P lg. subst lg.
  destruct (cycles_entries n s t i N P) as [N' P'].
  split; [assumption|]. split; [assumption|]. split.
  - rewrite <- possible_entries_length. now apply NoDup_incl_length.
  - now apply (proj1 (NoDup_count_occ string_dec _)).
Qed.

(** X14 on [DEVICES] with an empty log, over two cycles. *)
Lemma X14_log_witness :
  let s := Dashboard.mkState Dashboard.DEVICES [] [] in
  let lg := Dashboard.logs
              (fst (Dashboard.cycles 2 s (Rand.replay [5; 0; 5; 0; 5; 0]) 0%nat)) in
  NoDup lg
  /\ (forall x, In x lg -> In x (Obs.possible_entries (Dashboard.devices s)))
  /\ (List.length lg <= 1 + 10 * List.length (Dashboard.devices s))%nat
  /\ (count_occ string_dec lg Dashboard.elevate_msg <= 1)%nat.
Proof.
  apply (X14_log_texts_unique_and_bounded 2%nat
           (Dashboard.mkState Dashboard.DEVICES [] [])
           (Rand.replay [5; 0; 5; 0; 5; 0]) 0%nat).
  - simpl. constructor.
  - simpl. intros x F. destruct F.
Defined.

Section Panels.
Import Dashboard.

Lemma cycles_panels (n : nat) (s : state) (t : Rand.tape) (i : nat) :
  exists new : list (list string),
    shown (fst (cycles n s t i)) = shown s ++ new
    /\ List.length new = n
    /\ Forall (fun p => (List.length p <= 5)%nat
                        /\ exists older newer,
                             logs (fst (cycles n s t i)) = older ++ p ++ newer) new
    /\ (n = 0%nat
        \/ exists front, new = front ++ [recent (logs (fst (cycles n s t i)))]).
Proof.
  revert s i. induction n as [|n IH]; intros s i.
  - exists []. cbn [cycles fst Rand.ret]. rewrite app_nil_r.
    repeat split; [constructor | now left].
  - cbn [cycles]. unfold Rand.bind.
    destruct (cycle_shape s t i) as (_ & _ & Sh).
    destruct (cycle s t i) as [s1 j]. cbn [fst] in Sh.
    destruct (IH s1 j) as (new & E & L & F & Last).
    destruct (cycles_shape n s1 t j) as [[suffix Lg] _].
    exists (recent (logs s1) :: new). split; [|split; [|split]].
    + rewrite E, Sh. now rewrite <- app_assoc.
    + cbn [List.length]. now rewrite L.
    + constructor; [|assumption]. split.
      * rewrite recent_length. lia.
      * exists (firstn (List.length (logs s1) - 5) (logs s1)), suffix.
        rewrite Lg. rewrite (recent_suffix (logs s1)) at 1.
        now rewrite <- app_assoc.
    + right. destruct Last as [->|(front & ->)].
      * destruct new; [|discriminate]. exists []. reflexivity.
      * exists (recent (logs s1) :: front). reflexivity.
Qed.

End Panels.

(** X15.  A run of n dashboard cycles shows exactly n more panels, one per
    cycle and in order; each has at most five lines and is a contiguous
    stretch of the final log, and the last one is the tail of the final
    log. *)
Theorem X15_one_panel_per_cycle :
  forall (n : nat) (s : Dashboard.state) (t : Rand.tape) (i : nat),
    exists new : list (list string),
      Dashboard.shown (fst (Dashboard.cycles n s t i)) = Dashboard.shown s ++ new
      /\ List.length new = n
      /\ Forall (fun p => (List.length p <= 5)%nat
                          /\ exists older newer,
                               Dashboard.logs (fst (Dashboard.cycles n s t i))
                               = older ++ p ++ newer) new
      /\ (n = 0%nat
          \/ exists front,
               new = front
                     ++ [Dashboard.recent
                           (Dashboard.logs (fst (Dashboard.cycles n s t i)))]).
Proof.
  intros n s t i. apply cycles_panels.
Qed.

(** ** Signal drift over any number of cycles *)

(** X16.  Signals that start between lo and hi stay between lo - 2n and
    hi + 2n over n cycles of the driver's main loop; the optimisation passes
    in between never move a signal. *)
Theorem X16_signal_drift_over_cycles :
  forall (n : nat) (lo hi k : Z) (s : Driver.driver * list string)
         (t : Rand.tape) (i : nat),
    Forall (fun e => lo <= Driver.signal e <= hi) (Driver.active_connections (fst s)) ->
    Forall (fun e => lo - 2 * Z.of_nat n <= Driver.signal e <= hi + 2 * Z.of_nat n)
           (Driver.active_connections
              (fst (fst (Driver.for_range n k Driver.main_cycle s t i)))).
Proof.
  intros n lo hi k s t i H. now apply for_range_main_cycle_range.
Qed.

(** X16 on a phone at -50 dBm over seven cycles. *)
Lemma X16_signal_drift_witness :
  let phone := Driver.mkDevice "Samsung S23" "d9:92:1c:88:a3:21" "Mobile Phone" 5
                               "MEDIUM" (-50) 0%float "Connected" in
  let s := (Driver.mkDriver [phone] (Driver.mkStats 0 0 0), @nil string) in
  Forall (fun e => -50 - 2 * Z.of_nat 7 <= Driver.signal e <= -50 + 2 * Z.of_nat 7)
         (Driver.active_connections
            (fst (fst (Driver.for_range 7 0 Driver.main_cycle s (Rand.replay [3; 1]) 0%nat)))).
Proof.
  apply (X16_signal_drift_over_cycles 7%nat (-50) (-50) 0
           (Driver.mkDriver
              [Driver.mkDevice "Samsung S23" "d9:92:1c:88:a3:21" "Mobile Phone" 5
                               "MEDIUM" (-50) 0%float "Connected"]
              (Driver.mkStats 0 0 0), @nil string)
           (Rand.replay [3; 1]) 0%nat).
  simpl. constructor; [simpl; lia | constructor].
Defined.
